(** * pdfsummarizer: the text pipeline of [pdf_processor.py] and the
      summarisation client of [summarizer.py], embedded and verified.

    Python [str] values are modelled as [string]; a character is a code
    point below 256.  Python [int] values are modelled as [Z], lengths as
    [nat]. *)

From Stdlib Require Import String Ascii List ZArith Lia Bool Arith.
From Stdlib Require Import DecimalString.
Import ListNotations.
Open Scope string_scope.

(** ** Python string primitives used by the program *)

Module Py.

(** [str.isspace] on one character, which is also the class [\s] of [re]
    and the set removed by [str.strip()] and [str.split()]. *)
Definition is_space (c : ascii) : bool :=
  let n := nat_of_ascii c in
  (((9 <=? n) && (n <=? 13)) || ((28 <=? n) && (n <=? 32))
   || (n =? 133) || (n =? 160))%nat.

(** Truth value of a [str]: every string but the empty one. *)
Definition truthy (s : string) : bool :=
  match s with
  | EmptyString => false
  | String _ _ => true
  end.

Fixpoint lstrip (s : string) : string :=
  match s with
  | EmptyString => EmptyString
  | String c s' => if is_space c then lstrip s' else s
  end.

Fixpoint rstrip (s : string) : string :=
  match s with
  | EmptyString => EmptyString
  | String c s' =>
      let r := rstrip s' in
      if negb (truthy r) && is_space c then EmptyString else String c r
  end.

(** [s.strip()] *)
Definition strip (s : string) : string := rstrip (lstrip s).

(** [sep.join(parts)] *)
Definition join (sep : string) (parts : list string) : string :=
  String.concat sep parts.

(** Puts one more character in front of the first piece of a split. *)
Definition cons_head (c : ascii) (pieces : list string) : list string :=
  match pieces with
  | [] => [String c EmptyString]
  | p :: ps => String c p :: ps
  end.

(** [text.split('. ')]: the pieces between the non-overlapping occurrences
    of a period followed by a space, scanned from the left. *)
Fixpoint split_period_space (text : string) : list string :=
  match text with
  | EmptyString => [EmptyString]
  | String c rest =>
      match rest with
      | String c' rest' =>
          if Ascii.eqb c "." && Ascii.eqb c' " "
          then EmptyString :: split_period_space rest'
          else cons_head c (split_period_space rest)
      | EmptyString => cons_head c (split_period_space rest)
      end
  end.

(** [text.split()]: the maximal runs of characters that are not white
    space. *)
Fixpoint split_whitespace (text : string) : list string :=
  match text with
  | EmptyString => []
  | String c rest =>
      if is_space c then split_whitespace rest
      else match rest with
           | EmptyString => [String c EmptyString]
           | String c' _ =>
               if is_space c' then String c EmptyString :: split_whitespace rest
               else cons_head c (split_whitespace rest)
           end
  end.

(** [needle in hay] for strings. *)
Fixpoint contains (needle hay : string) : bool :=
  String.prefix needle hay
  || match hay with
     | EmptyString => false
     | String _ hay' => contains needle hay'
     end.

(** [str(n)] for a natural number: its decimal digits. *)
Definition str_of_nat (n : nat) : string :=
  NilEmpty.string_of_uint (Nat.to_uint n).

(** Last character of a string, if any. *)
Fixpoint last_char (s : string) : option ascii :=
  match s with
  | EmptyString => None
  | String c EmptyString => Some c
  | String _ s' => last_char s'
  end.

End Py.

(** ** [pdf_processor.py]: class [PDFProcessor] *)

Module PDFProcessor.
Import Py.

(** *** [clean_text] *)

Definition starts_with (c : ascii) (s : string) : bool :=
  match s with
  | EmptyString => false
  | String a _ => Ascii.eqb a c
  end.

(** [re.sub(c+, c, text)] for one character [c]: every run of [c] becomes a
    single [c]. *)
Fixpoint squeeze (c : ascii) (text : string) : string :=
  match text with
  | EmptyString => EmptyString
  | String a rest =>
      if Ascii.eqb a c && starts_with c rest then squeeze c rest
      else String a (squeeze c rest)
  end.

(** The class [\d] of [re]. *)
Definition is_digit (c : ascii) : bool :=
  let n := nat_of_ascii c in ((48 <=? n) && (n <=? 57))%nat.

(** The class [\w] of [re]: alphanumeric characters and the underscore. *)
Definition is_word (c : ascii) : bool :=
  let n := nat_of_ascii c in
  (((48 <=? n) && (n <=? 57)) || ((65 <=? n) && (n <=? 90))
   || (n =? 95) || ((97 <=? n) && (n <=? 122))
   || (n =? 170) || (n =? 178) || (n =? 179) || (n =? 181)
   || (n =? 185) || (n =? 186) || ((188 <=? n) && (n <=? 190))
   || ((192 <=? n) && (n <=? 214)) || ((216 <=? n) && (n <=? 246))
   || (248 <=? n))%nat.

Fixpoint drop (n : nat) (s : string) : string :=
  match n, s with
  | O, _ => s
  | S k, String _ s' => drop k s'
  | S _, EmptyString => EmptyString
  end.

(** Length of the run of digits at the start of [s]. *)
Fixpoint digit_run (s : string) : nat :=
  match s with
  | String c s' => if is_digit c then S (digit_run s') else O
  | EmptyString => O
  end.

(** Length of the match of [--- Page \d+ ---] at the start of [s], if it
    matches there. *)
Definition page_marker_at (s : string) : option nat :=
  if String.prefix "--- Page " s then
    let after := drop 9 s in
    let d := digit_run after in
    if (0 <? d)%nat && String.prefix " ---" (drop d after)
    then Some (9 + d + 4)%nat else None
  else None.

(** [re.sub(r'--- Page \d+ ---', '', text)]; [skip] counts the characters
    of a match that are still to be dropped. *)
Fixpoint remove_page_markers (skip : nat) (text : string) : string :=
  match text with
  | EmptyString => EmptyString
  | String c rest =>
      match skip with
      | S k => remove_page_markers k rest
      | O =>
          match page_marker_at text with
          | Some n => remove_page_markers (Nat.pred n) rest
          | None => String c (remove_page_markers 0 rest)
          end
      end
  end.

(** The characters that [[^\w\s\.\,\!\?\;\:\-\(\)]] does not match. *)
Definition is_kept (c : ascii) : bool :=
  is_word c || is_space c
  || existsb (Ascii.eqb c) ["."; ","; "!"; "?"; ";"; ":"; "-"; "("; ")"]%char.

Fixpoint blank_special (text : string) : string :=
  match text with
  | EmptyString => EmptyString
  | String c rest =>
      String (if is_kept c then c else " "%char) (blank_special rest)
  end.

Definition clean_text (text : string) : string :=
  let text := squeeze "010" text in
  let text := squeeze " " text in
  let text := remove_page_markers 0 text in
  let text := blank_special text in
  let text := join " " (split_whitespace text) in
  strip text.

(** *** [count_tokens] and [chunk_text]

    The encoder is [tiktoken.get_encoding("cl100k_base")], a library
    outside the repository.  It is a parameter here: a function from a
    text to its list of tokens.  The library's [encode] raises on a text
    that holds one of its special tokens, which all open with [<|]; the
    texts [clean_text] returns hold neither character, and what is proved
    of the chunks beyond their shape is proved of those texts. *)

Section Tokenizer.

Variable token : Type.
Variable encode : string -> list token.

Definition count_tokens (text : string) : Z :=
  Z.of_nat (List.length (encode text)).

(** One turn of the loop over the sentences; the state is [chunks] and
    [current_chunk]. *)
Definition chunk_step (max_tokens : Z) (st : list string * string)
    (sentence : string) : list string * string :=
  let '(chunks, current_chunk) := st in
  let test_chunk := current_chunk ++ sentence ++ ". " in
  if (count_tokens test_chunk >? max_tokens)%Z && truthy current_chunk
  then ((chunks ++ [strip current_chunk])%list, sentence ++ ". ")
  else (chunks, test_chunk).

Definition chunk_loop (max_tokens : Z) (sentences : list string)
    (st : list string * string) : list string * string :=
  fold_left (chunk_step max_tokens) sentences st.

Definition chunk_text (text : string) (max_tokens : Z) : list string :=
  let sentences := split_period_space text in
  let '(chunks, current_chunk) :=
    chunk_loop max_tokens sentences ([], EmptyString) in
  if truthy (strip current_chunk)
  then (chunks ++ [strip current_chunk])%list
  else chunks.

End Tokenizer.

Arguments count_tokens {token} encode text.
Arguments chunk_step {token} encode max_tokens st sentence.
Arguments chunk_loop {token} encode max_tokens sentences st.
Arguments chunk_text {token} encode text max_tokens.

End PDFProcessor.

(** ** Calls that may raise *)

(** What a Python call comes to: a value, or an exception with its
    message ([str(e)]). *)
Inductive outcome (A : Type) : Type :=
| Returned (value : A)
| Raised (message : string).

Arguments Returned {A} value.
Arguments Raised {A} message.

Definition is_raised {A : Type} (o : outcome A) : bool :=
  match o with
  | Returned _ => false
  | Raised _ => true
  end.

(** A computation on a state [S] that returns or raises. *)
Definition Run (S A : Type) : Type := S -> outcome A * S.

Definition ret {S A : Type} (a : A) : Run S A := fun s => (Returned a, s).

Definition bind {S A B : Type} (m : Run S A) (k : A -> Run S B) : Run S B :=
  fun s =>
    match m s with
    | (Returned a, s') => k a s'
    | (Raised e, s') => (Raised e, s')
    end.

(** [try: body except Exception as e: handler(str(e))] *)
Definition try_except {S A : Type} (body : Run S A)
    (handler : string -> Run S A) : Run S A :=
  fun s =>
    match body s with
    | (Returned a, s') => (Returned a, s')
    | (Raised e, s') => handler e s'
    end.

Definition lift_outcome {S A : Type} (o : outcome A) : Run S A :=
  fun s => (o, s).

Declare Scope run_scope.
Delimit Scope run_scope with run.
Notation "x <- m ;; k" := (bind m (fun x => k))
  (at level 61, m at next level, right associativity) : run_scope.
Notation "m ;;; k" := (bind m (fun _ => k))
  (at level 61, right associativity) : run_scope.

(** *** [extract_text_from_pdf]

    [PyPDF2.PdfReader(pdf_file)] either raises or gives the pages of the
    document; [page.extract_text()] either raises or gives the text of the
    page.  The lines printed to the console are the second component of
    the result. *)

Module Extractor.
Import Py.

Record Page : Type := { extract_text : outcome string }.

Definition PdfFile : Type := outcome (list Page).

(** One turn of the loop over [enumerate(pdf_reader.pages)]; the state is
    [text] and the printed lines. *)
Definition page_step (st : string * list string) (item : nat * Page)
    : string * list string :=
  let '(text, printed) := st in
  let '(page_num, page) := item in
  match extract_text page with
  | Returned page_text =>
      (text ++ (String "010" "--- Page " ++ str_of_nat (page_num + 1)
                ++ " ---" ++ String "010" page_text), printed)
  | Raised e =>
      (text,
       (printed ++ [("Error extracting page " ++ str_of_nat (page_num + 1)
                     ++ ": " ++ e)%string])%list)
  end.

(** [enumerate(xs)], counting from [start]. *)
Fixpoint enumerate {A : Type} (start : nat) (xs : list A)
    : list (nat * A) :=
  match xs with
  | [] => []
  | x :: xs' => (start, x) :: enumerate (S start) xs'
  end.

Definition extract_text_from_pdf (pdf_file : PdfFile)
    : outcome string * list string :=
  match pdf_file with
  | Returned pages =>
      let '(text, printed) :=
        fold_left page_step (enumerate 0 pages) (EmptyString, []) in
      (Returned text, printed)
  | Raised e => (Raised ("Error reading PDF: " ++ e), [])
  end.

(** The text the specification describes: the pages whose extraction
    returned, in page order, each behind the marker of its page number. *)
Definition page_block (item : nat * string) : string :=
  String "010" "--- Page " ++ str_of_nat (fst item + 1) ++ " ---"
  ++ String "010" (snd item).

Fixpoint extracted_pages (items : list (nat * Page)) : list (nat * string) :=
  match items with
  | [] => []
  | (n, page) :: rest =>
      match extract_text page with
      | Returned t => (n, t) :: extracted_pages rest
      | Raised _ => extracted_pages rest
      end
  end.

End Extractor.

(** ** [summarizer.py]: class [PDFSummarizer] *)

Module PDFSummarizer.
Import Py.
Local Open Scope run_scope.

Definition nl : string := String "010" EmptyString.

Record PromptTemplate : Type := {
  input_variables : list string;
  template : string
}.

(** A [dict] with [str] keys, in insertion order. *)
Fixpoint lookup {A : Type} (key : string) (d : list (string * A))
    : option A :=
  match d with
  | [] => None
  | (k, v) :: d' => if String.eqb k key then Some v else lookup key d'
  end.

(** [key in d] *)
Definition has_key {A : Type} (key : string) (d : list (string * A))
    : bool :=
  match lookup key d with
  | Some _ => true
  | None => false
  end.

(** [d[key]], which raises [KeyError] on an absent key. *)
Definition getitem {A : Type} (d : list (string * A)) (key : string)
    : outcome A :=
  match lookup key d with
  | Some v => Returned v
  | None => Raised key
  end.

Definition map_outcome {A B : Type} (f : A -> B) (o : outcome A)
    : outcome B :=
  match o with
  | Returned a => Returned (f a)
  | Raised e => Raised e
  end.

(** [template.format] on keyword inputs, for templates whose braces only enclose
    variable names; [name] holds the part of a name read so far. *)
Fixpoint format_from (inputs : list (string * string)) (tpl : string)
    (name : option string) : outcome string :=
  match tpl with
  | EmptyString =>
      match name with
      | None => Returned EmptyString
      | Some _ => Raised "expected '}' before end of string"
      end
  | String c rest =>
      match name with
      | None =>
          if Ascii.eqb c "{" then format_from inputs rest (Some EmptyString)
          else map_outcome (String c) (format_from inputs rest None)
      | Some n =>
          if Ascii.eqb c "}" then
            match lookup n inputs with
            | Some v => map_outcome (append v) (format_from inputs rest None)
            | None => Raised n
            end
          else format_from inputs rest (Some (n ++ String c EmptyString))
      end
  end.

Definition format (p : PromptTemplate) (inputs : list (string * string))
    : outcome string :=
  format_from inputs (template p) None.

Definition summary_prompts : list (string * PromptTemplate) :=
  [ ("brief",
     {| input_variables := ["text"];
        template := join nl
          [ "";
            "Provide a brief, concise summary of the following text in 2-3 sentences.";
            "Focus on the main points and key takeaways.";
            "";
            "Text: {text}";
            "";
            "Brief Summary:" ] |});
    ("detailed",
     {| input_variables := ["text"];
        template := join nl
          [ "";
            "Provide a detailed summary of the following text.";
            "Include:";
            "- Main topics and themes";
            "- Key arguments or findings";
            "- Important details and examples";
            "- Conclusions or recommendations";
            "";
            "Text: {text}";
            "";
            "Detailed Summary:" ] |});
    ("bullet_points",
     {| input_variables := ["text"];
        template := join nl
          [ "";
            "Summarize the following text as clear, organized bullet points.";
            "Group related information together and use sub-bullets where appropriate.";
            "";
            "Text: {text}";
            "";
            "Bullet Point Summary:" ] |});
    ("executive",
     {| input_variables := ["text"];
        template := join nl
          [ "";
            "Create an executive summary of the following text suitable for business leaders.";
            "Include:";
            "- Key insights and findings";
            "- Strategic implications";
            "- Actionable recommendations";
            "- Risk factors or considerations";
            "";
            "Text: {text}";
            "";
            "Executive Summary:" ] |}) ].

Definition meta_prompt : PromptTemplate :=
  {| input_variables := ["summaries"; "summary_type"];
     template := join nl
       [ "";
         "You have been provided with summaries from different sections of a document.";
         "Create a final, cohesive summary that synthesizes all the information.";
         "";
         "Summary Type: {summary_type}";
         "";
         "Section Summaries:";
         "{summaries}";
         "";
         "Final Cohesive Summary:" ] |}.

(** One element of [chunk_summaries]. *)
Record ChunkSummary : Type := {
  chunk_number : nat;
  summary : string;
  original_length : nat;
  summary_length : nat
}.

(** The [dict] returned by [summarize_chunks]. *)
Record Report : Type := {
  individual_summaries : list ChunkSummary;
  combined_summary : string;
  total_chunks : nat;
  summary_type_used : string
}.

(** [f"Processing {len(chunks)} chunks..."] *)
Definition start_line (total : nat) : string :=
  "Processing " ++ str_of_nat total ++ " chunks...".

(** [f"Summarizing chunk {i+1}/{len(chunks)}..."] *)
Definition chunk_line (total i : nat) : string :=
  "Summarizing chunk " ++ str_of_nat (i + 1) ++ "/" ++ str_of_nat total
  ++ "...".

(** The entry appended for the chunk at index [i] when [summarize_text]
    returned [summary]. *)
Definition summary_entry (i : nat) (chunk summary : string) : ChunkSummary :=
  {| chunk_number := i + 1;
     summary := summary;
     original_length := String.length chunk;
     summary_length := String.length summary |}.

(** The hosted model, the clock and the console are the world the client
    acts on: [llm_call] is the request made by [chain.run] with the
    formatted prompt, [sleep] is [time.sleep(1)], [print] is [print].
    Building a [PromptTemplate] or an [LLMChain] does not raise; formatting
    a prompt and sending the request may. *)

Section Client.

Variable World : Type.
Variable llm_call : string -> Run World string.
Variable sleep : World -> World.
Variable print : string -> World -> World.

Definition do_sleep : Run World unit := fun w => (Returned tt, sleep w).
Definition do_print (line : string) : Run World unit :=
  fun w => (Returned tt, print line w).

(** [LLMChain(llm=self.llm, prompt=prompt).run] on keyword inputs. *)
Definition chain_run (prompt : PromptTemplate)
    (inputs : list (string * string)) : Run World string :=
  formatted <- lift_outcome (format prompt inputs) ;;
  llm_call formatted.

Definition summarize_text (text : string) (summary_type : string)
    : Run World string :=
  let summary_type :=
    if negb (has_key summary_type summary_prompts) then "detailed"
    else summary_type in
  prompt <- lift_outcome (getitem summary_prompts summary_type) ;;
  try_except
    (chain_run prompt [("text", text)])
    (fun e => ret ("Error generating summary: " ++ e)%string).

(** [[f"Section {i+1}: {summary}" for i, summary in enumerate(...)]],
    with [i] counting from [start]. *)
Fixpoint section_labels (start : nat) (summaries : list string)
    : list string :=
  match summaries with
  | [] => []
  | s :: rest =>
      ("Section " ++ str_of_nat (start + 1) ++ ": " ++ s)%string
      :: section_labels (S start) rest
  end.

Definition combine_summaries (chunk_summaries : list ChunkSummary)
    (summary_type : string) : Run World string :=
  let individual_summaries :=
    map summary
      (filter (fun cs => negb (contains "Error" (summary cs)))
         chunk_summaries) in
  match individual_summaries with
  | [] => ret "No valid summaries were generated."
  | _ =>
      let combined_text :=
        join (nl ++ nl) (section_labels 0 individual_summaries) in
      try_except
        (chain_run meta_prompt
           [("summaries", combined_text); ("summary_type", summary_type)])
        (fun _ =>
           ret ("Combined Summary:" ++ nl ++ nl ++ combined_text)%string)
  end.

(** The body of the loop of [summarize_chunks] for the chunk at index [i]
    of [total]; [chunk_summaries] is the list built so far.  Nothing in
    the [try] block raises once the entry is appended, so the handler
    appends to the list as it was on entry. *)
Definition summarize_chunk (total i : nat) (chunk summary_type : string)
    (chunk_summaries : list ChunkSummary) : Run World (list ChunkSummary) :=
  do_print (chunk_line total i) ;;;
  try_except
    (summary <- summarize_text chunk summary_type ;;
     let chunk_summaries :=
       (chunk_summaries ++ [summary_entry i chunk summary])%list in
     (if (Z.of_nat i <? Z.of_nat total - 1)%Z then do_sleep else ret tt) ;;;
     ret chunk_summaries)
    (fun e =>
       ret (chunk_summaries ++
         [ {| chunk_number := i + 1;
              summary := ("Error processing chunk: " ++ e)%string;
              original_length := String.length chunk;
              summary_length := 0 |} ])%list).

(** The loop over [enumerate(chunks)], from index [i] on. *)
Fixpoint summarize_loop (total i : nat) (chunks : list string)
    (summary_type : string) (chunk_summaries : list ChunkSummary)
    : Run World (list ChunkSummary) :=
  match chunks with
  | [] => ret chunk_summaries
  | chunk :: rest =>
      chunk_summaries <-
        summarize_chunk total i chunk summary_type chunk_summaries ;;
      summarize_loop total (S i) rest summary_type chunk_summaries
  end.

Definition summarize_chunks (chunks : list string) (summary_type : string)
    : Run World Report :=
  do_print (start_line (List.length chunks)) ;;;
  chunk_summaries <-
    summarize_loop (List.length chunks) 0 chunks summary_type [] ;;
  combined_summary <- combine_summaries chunk_summaries summary_type ;;
  ret {| individual_summaries := chunk_summaries;
         combined_summary := combined_summary;
         total_chunks := List.length chunks;
         summary_type_used := summary_type |}.

(** The world in which the loop of [summarize_chunks] reaches the chunk
    at index [i]: the one left by the turns before it. *)
Definition world_at_chunk (chunks : list string) (summary_type : string)
    (w : World) (i : nat) : World :=
  snd (summarize_loop (List.length chunks) 0 (firstn i chunks) summary_type []
         (print (start_line (List.length chunks)) w)).

(** The request that [summarize_text] sends for [chunk], made in the world
    in which the loop reaches index [i]. *)
Definition chunk_request (chunks : list string) (summary_type : string)
    (w : World) (i : nat) (chunk : string) : outcome string :=
  let summary_type' :=
    if negb (has_key summary_type summary_prompts) then "detailed"
    else summary_type in
  match getitem summary_prompts summary_type' with
  | Returned prompt =>
      fst (chain_run prompt [("text", chunk)]
             (print (chunk_line (List.length chunks) i)
                (world_at_chunk chunks summary_type w i)))
  | Raised e => Raised e
  end.

End Client.

End PDFSummarizer.

(** ** The vocabulary of the properties *)

Module Props.
Import Py PDFProcessor.

(** No white space at the start. *)
Definition clean_head (s : string) : Prop :=
  match s with
  | EmptyString => True
  | String c _ => is_space c = false
  end.

(** No white space character follows another one. *)
Fixpoint spaced_once (s : string) : bool :=
  match s with
  | EmptyString => true
  | String a rest =>
      match rest with
      | EmptyString => true
      | String b _ => negb (is_space a && is_space b)
      end && spaced_once rest
  end.

(** What [clean_text] leaves: words with one space between them. *)
Definition normalized (s : string) : Prop :=
  clean_head s /\ spaced_once s = true.

Definition spaceless (w : string) : Prop :=
  Forall (fun c => is_space c = false) (list_ascii_of_string w).

Definition is_word_piece (w : string) : Prop := w <> "" /\ spaceless w.

(** A chunk as the loop emits it: some text and a closing period. *)
Definition closed_by_period (c : string) : Prop :=
  c <> "" /\ last_char c = Some "."%char.

(** The running chunk is empty before the first sentence and ends in a
    period and a space from then on. *)
Definition open_chunk (current_chunk : string) : Prop :=
  current_chunk = "" \/ exists y, current_chunk = y ++ ". ".


(** What the sentences after the first add to the joined chunks. *)
Fixpoint later_sentences (sentences : list string) : string :=
  match sentences with
  | [] => ""
  | s :: rest => " " ++ s ++ "." ++ later_sentences rest
  end.

End Props.

(** ** Sample instances *)

Module Samples.
Import Py PDFProcessor PDFSummarizer.

(** An encoder with one token per character. *)
Definition chars (text : string) : list ascii := list_ascii_of_string text.

(** An encoder that knows one longer token, [xyz], and otherwise gives one
    token per character. *)
Definition merging (text : string) : list string :=
  if String.eqb text "xyz" then ["xyz"]
  else map (fun c => String c EmptyString) (list_ascii_of_string text).

(** A world that counts the requests made; the model refuses every prompt
    that mentions a quota. *)
Definition Calls : Type := nat.

Definition moody_llm (prompt : string) : Run Calls string :=
  fun calls =>
    (if contains "quota" prompt then Raised "quota exceeded"
     else Returned ("Summary " ++ str_of_nat calls), S calls).

Definition no_sleep (calls : Calls) : Calls := calls.
Definition no_print (line : string) (calls : Calls) : Calls := calls.

(** Three chunk summaries: the second one is an error text, the third one
    makes [moody_llm] refuse the synthesis request. *)
Definition sample_summaries : list ChunkSummary :=
  [ summary_entry 0 "chunk one" "First part.";
    summary_entry 1 "chunk two" "Error generating summary: timeout";
    summary_entry 2 "chunk three" "The quota rules." ].

End Samples.

From Stdlib Require DecimalNat.

(** ** More of the program: the functions beside the ones above *)

(** *** More string primitives *)

Module PyMore.
Import Py.

(** [s[:n]] *)
Fixpoint take (n : nat) (s : string) : string :=
  match n, s with
  | S k, String c s' => String c (take k s')
  | _, _ => EmptyString
  end.

(** [s.split(c)] for a separator of one character. *)
Fixpoint split_char (c : ascii) (s : string) : list string :=
  match s with
  | EmptyString => [EmptyString]
  | String a rest =>
      if Ascii.eqb a c then EmptyString :: split_char c rest
      else cons_head a (split_char c rest)
  end.

End PyMore.

(** *** [summarizer.py]: [analyze_document_structure] and
    [extract_key_quotes] *)

Module Analysis.
Import Py PyMore PDFSummarizer.
Local Open Scope run_scope.

Definition analysis_prompt : PromptTemplate :=
  {| input_variables := ["text"];
     template := join nl
       [ "";
         "Analyze the structure and content of this document. Provide:";
         "";
         "1. Document Type (research paper, report, article, etc.)";
         "2. Main Topics/Themes";
         "3. Key Sections or Chapters";
         "4. Target Audience";
         "5. Overall Purpose";
         "";
         "Text: {text}";
         "";
         "Document Analysis:" ] |}.

Definition quotes_prompt : PromptTemplate :=
  {| input_variables := ["text"];
     template := join nl
       [ "";
         "Extract 5-10 key quotes, statements, or important phrases from this text.";
         "Choose quotes that best represent the main ideas or are particularly insightful.";
         "";
         "Text: {text}";
         "";
         "Key Quotes (one per line):" ] |}.

(** The [dict] returned by [analyze_document_structure]. *)
Record DocumentAnalysis : Type := {
  analysis : string;
  status : string
}.

Section Client.

Variable World : Type.
Variable llm_call : string -> Run World string.

Definition analyze_document_structure (text : string)
    : Run World DocumentAnalysis :=
  try_except
    (analysis <- chain_run World llm_call analysis_prompt
                   [("text", take 3000 text)] ;;
     ret {| analysis := analysis; status := "success" |})
    (fun e =>
       ret {| analysis := ("Error analyzing document: " ++ e)%string;
              status := "error" |}).

Definition extract_key_quotes (text : string) : Run World (list string) :=
  try_except
    (quotes_response <- chain_run World llm_call quotes_prompt
                          [("text", text)] ;;
     let quotes :=
       map strip
         (filter (fun quote => truthy (strip quote))
            (split_char "010" quotes_response)) in
     ret (firstn 10 quotes))
    (fun e => ret [("Error extracting quotes: " ++ e)%string]).

End Client.

End Analysis.

(** *** [utils.py]: [export_summary_to_text]

    [str.title] and the clock read by [time.strftime] are outside the
    repository: [title] and the formatted time [now] are parameters. *)

Module Utils.
Import Py PDFSummarizer.

Section TextExport.

Variable title : string -> string.

(** One turn of the loop over [summary_data['individual_summaries']]. *)
Definition export_step (content : string) (chunk_summary : ChunkSummary)
    : string :=
  let content :=
    content ++ "Chunk " ++ str_of_nat (chunk_number chunk_summary) ++ ":"
    ++ nl in
  content ++ summary chunk_summary ++ nl ++ nl.

Definition export_summary_to_text (now : string) (summary_data : Report)
    (filename : string) : string :=
  let content := "PDF Summary Report" ++ nl in
  let content := content ++ "==================" ++ nl ++ nl in
  let content :=
    content ++ "Summary Type: " ++ title (summary_type_used summary_data)
    ++ nl in
  let content :=
    content ++ "Total Chunks Processed: "
    ++ str_of_nat (total_chunks summary_data) ++ nl in
  let content := content ++ "Generated on: " ++ now ++ nl ++ nl in
  let content := content ++ "FINAL SUMMARY" ++ nl in
  let content := content ++ "=============" ++ nl ++ nl in
  let content := content ++ combined_summary summary_data in
  let content :=
    content ++ nl ++ nl ++ "INDIVIDUAL CHUNK SUMMARIES" ++ nl in
  let content := content ++ "==========================" ++ nl ++ nl in
  fold_left export_step (individual_summaries summary_data) content.

End TextExport.

End Utils.

(** *** A world that keeps a record of what was done to it *)

Module Tracing.
Import Py PDFSummarizer.

Inductive Event : Type :=
| Asked (prompt : string)
| Slept
| Printed (line : string).

Section Traced.

Variable World : Type.
Variable llm_call : string -> Run World string.
Variable sleep : World -> World.
Variable print : string -> World -> World.

(** A world together with the events so far, oldest first. *)
Definition Traced : Type := (World * list Event)%type.

Definition traced_llm (prompt : string) : Run Traced string :=
  fun st =>
    let '(result, w') := llm_call prompt (fst st) in
    (result, (w', (snd st ++ [Asked prompt])%list)).

Definition traced_sleep (st : Traced) : Traced :=
  (sleep (fst st), (snd st ++ [Slept])%list).

Definition traced_print (line : string) (st : Traced) : Traced :=
  (print line (fst st), (snd st ++ [Printed line])%list).

End Traced.

(** The part of a template in front of its first variable, and the part
    behind it. *)
Fixpoint template_before (tpl : string) : string :=
  match tpl with
  | EmptyString => EmptyString
  | String c rest =>
      if Ascii.eqb c "{" then EmptyString
      else String c (template_before rest)
  end.

Fixpoint template_after (tpl : string) : string :=
  match tpl with
  | EmptyString => EmptyString
  | String c rest =>
      if Ascii.eqb c "}" then rest else template_after rest
  end.

(** A template with [text] in the place of its variable. *)
Definition filled (prompt : PromptTemplate) (text : string) : string :=
  template_before (template prompt) ++ text
  ++ template_after (template prompt).

(** What the loop of [summarize_chunks] over [chunks], from index [i] on,
    is to do: print, ask, and pause unless the chunk is the last. *)
Fixpoint loop_events (prompt : PromptTemplate) (total i : nat)
    (chunks : list string) : list Event :=
  match chunks with
  | [] => []
  | chunk :: rest =>
      ([Printed (chunk_line total i); Asked (filled prompt chunk)]
       ++ (if (Z.of_nat i <? Z.of_nat total - 1)%Z then [Slept] else [])
       ++ loop_events prompt total (S i) rest)%list
  end.

End Tracing.

(** *** More sample instances *)

Module MoreSamples.
Import Py PDFSummarizer Samples.

(** A model that answers every prompt with the same three lines, the
    second of them blank. *)
Definition lined_llm (prompt : string) : Run Calls string :=
  fun calls =>
    (Returned ("  First quote. " ++ nl ++ "   " ++ nl ++ "Second quote"),
     S calls).

End MoreSamples.

(** *** More vocabulary for the properties *)

Module MoreProps.
Import Py PDFProcessor Extractor PDFSummarizer.

(** [R] holds between every element of the list and its successor. *)
Fixpoint each_adjacent {A : Type} (R : A -> A -> Prop) (l : list A) : Prop :=
  match l with
  | a :: tail =>
      match tail with
      | b :: _ => R a b
      | [] => True
      end /\ each_adjacent R tail
  | [] => True
  end.

(** The chunk [a] was closed because the sentence [s] that opens the next
    chunk [b] did not fit behind it; [all] are the sentences of the text. *)
Definition closed_for {token : Type} (encode : string -> list token)
    (max_tokens : Z) (all : list string) (a b : string) : Prop :=
  exists s r,
    In s all /\ b = s ++ "." ++ r
    /\ (max_tokens < count_tokens encode (a ++ " " ++ s ++ ". "))%Z.

(** The characters [clean_text] lets through: what the substitution keeps,
    white space excepted, and the space. *)
Definition is_clean_char (c : ascii) : bool :=
  (is_kept c && negb (is_space c)) || Ascii.eqb c " ".

(** No white space at the end. *)
Definition clean_tail (s : string) : Prop :=
  match last_char s with
  | Some c => is_space c = false
  | None => True
  end.

(** The pages whose extraction raised, in page order, with the message. *)
Fixpoint failed_pages (items : list (nat * Page)) : list (nat * string) :=
  match items with
  | [] => []
  | (n, page) :: rest =>
      match extract_text page with
      | Returned _ => failed_pages rest
      | Raised e => (n, e) :: failed_pages rest
      end
  end.

(** The line printed for a page that raised. *)
Definition failure_line (item : nat * string) : string :=
  "Error extracting page " ++ str_of_nat (fst item + 1) ++ ": " ++ snd item.

(** What [export_summary_to_text] writes for one chunk summary. *)
Definition export_block (chunk_summary : ChunkSummary) : string :=
  "Chunk " ++ str_of_nat (chunk_number chunk_summary) ++ ":" ++ nl
  ++ summary chunk_summary ++ nl ++ nl.

(** A report without its chunk summaries. *)
Definition without_entries (report : Report) : Report :=
  {| individual_summaries := [];
     combined_summary := combined_summary report;
     total_chunks := total_chunks report;
     summary_type_used := summary_type_used report |}.

(** The text starts with a white space character. *)
Definition starts_with_space (s : string) : bool :=
  match s with
  | EmptyString => false
  | String c _ => is_space c
  end.

(** The marker that [extract_text_from_pdf] writes for the page at index
    [n], without the line breaks around it. *)
Definition page_marker (n : nat) : string :=
  "--- Page " ++ str_of_nat (n + 1) ++ " ---".

(** The words [clean_text] finds on one line: what its steps after the
    first leave of a text without line breaks. *)
Definition line_words (line : string) : list string :=
  split_whitespace
    (blank_special (remove_page_markers 0 (squeeze " " line))).

(** The words [clean_text] joins: its steps up to [text.split()]. *)
Definition text_words (text : string) : list string :=
  split_whitespace
    (blank_special
       (remove_page_markers 0 (squeeze " " (squeeze "010" text)))).

End MoreProps.

(** * Verification *)

(** ** Facts about the string primitives *)

Module PyFacts.
Import Py.

Lemma append_empty_r (s : string) : s ++ "" = s.
Proof. induction s as [|c s IH]; simpl; [reflexivity | now rewrite IH]. Qed.

Lemma append_assoc (s t u : string) : (s ++ t) ++ u = s ++ t ++ u.
Proof. induction s as [|c s IH]; simpl; [reflexivity | now rewrite IH]. Qed.

Lemma lstrip_before_period (x : string) :
  lstrip (x ++ ". ") = lstrip x ++ ". ".
Proof.
  induction x as [|c x IH]; simpl.
  - reflexivity.
  - destruct (is_space c); [exact IH | reflexivity].
Qed.

Lemma rstrip_period_space (z : string) : rstrip (z ++ ". ") = z ++ ".".
Proof.
  induction z as [|c z IH].
  - reflexivity.
  - change (rstrip (String c z ++ ". "))
      with (let r := rstrip (z ++ ". ") in
            if negb (truthy r) && is_space c then EmptyString else String c r).
    rewrite IH. destruct z; reflexivity.
Qed.

(** Stripping a text that ends in a period and a space only loses that
    space and the white space in front. *)
Lemma strip_period_space (x : string) :
  strip (x ++ ". ") = lstrip x ++ ".".
Proof.
  unfold strip. now rewrite lstrip_before_period, rstrip_period_space.
Qed.

Lemma last_char_period (z : string) : last_char (z ++ ".") = Some "."%char.
Proof.
  induction z as [|c z IH]; [reflexivity|].
  simpl. destruct (z ++ ".") eqn:E; [destruct z; discriminate | exact IH].
Qed.

Lemma period_nonempty (z : string) : z ++ "." <> "".
Proof. destruct z; discriminate. Qed.

End PyFacts.

(** ** Cleaned texts *)

Module CleanFacts.
Import Py PDFProcessor Props PyFacts.

Lemma lstrip_clean_head (s : string) : clean_head s -> lstrip s = s.
Proof. destruct s as [|c s]; simpl; [reflexivity | now intros ->]. Qed.

Lemma rstrip_cases (s : string) :
  rstrip s = "" \/ exists c r t, s = String c t /\ rstrip s = String c r.
Proof.
  destruct s as [|c s]; [now left|].
  simpl. destruct (negb (truthy (rstrip s)) && is_space c); [now left|].
  right. now exists c, (rstrip s), s.
Qed.

Lemma rstrip_clean_head (s : string) : clean_head s -> clean_head (rstrip s).
Proof.
  destruct s as [|c s]; simpl; [trivial|].
  intros Hc. destruct (negb (truthy (rstrip s)) && is_space c); simpl; trivial.
Qed.

Lemma rstrip_spaced_once (s : string) :
  spaced_once s = true -> spaced_once (rstrip s) = true.
Proof.
  induction s as [|c s IH]; [reflexivity|].
  intros H. simpl in H. apply andb_prop in H. destruct H as [Hpair Hrest].
  specialize (IH Hrest).
  simpl. destruct (negb (truthy (rstrip s)) && is_space c); [reflexivity|].
  simpl. rewrite IH, andb_true_r.
  destruct (rstrip_cases s) as [-> | (a & r & t & -> & ->)]; [reflexivity|].
  exact Hpair.
Qed.

Lemma strip_normalized (s : string) : normalized s -> normalized (strip s).
Proof.
  intros [Hh Hs]. unfold strip. rewrite (lstrip_clean_head s Hh).
  split; [now apply rstrip_clean_head | now apply rstrip_spaced_once].
Qed.

Lemma cons_head_pieces (c : ascii) (ps : list string) :
  is_space c = false -> Forall is_word_piece ps ->
  Forall is_word_piece (cons_head c ps).
Proof.
  intros Hc Hps. destruct ps as [|p ps]; simpl.
  - constructor; [|constructor]. split; [discriminate|].
    constructor; [assumption | constructor].
  - inversion Hps as [|? ? [Hne Hp] Hrest]; subst.
    constructor; [|assumption]. split; [discriminate|].
    constructor; assumption.
Qed.

Lemma split_whitespace_pieces (text : string) :
  Forall is_word_piece (split_whitespace text).
Proof.
  induction text as [|c rest IH]; simpl; [constructor|].
  destruct (is_space c) eqn:Hc; [assumption|].
  destruct rest as [|c' rest'] eqn:Hrest.
  - constructor; [|constructor]. split; [discriminate|].
    constructor; [assumption | constructor].
  - destruct (is_space c') eqn:Hc'.
    + constructor; [|assumption]. split; [discriminate|].
      constructor; [assumption | constructor].
    + now apply cons_head_pieces.
Qed.

Lemma spaceless_then_spaced (w t : string) :
  spaceless w -> spaced_once t = true -> spaced_once (w ++ t) = true.
Proof.
  unfold spaceless. induction w as [|c w IH]; simpl; intros Hw Ht.
  - assumption.
  - inversion Hw as [|? ? Hc Hrest]; subst.
    rewrite (IH Hrest Ht), andb_true_r, Hc.
    destruct (w ++ t); reflexivity.
Qed.

Lemma join_space_normalized (ws : list string) :
  Forall is_word_piece ws -> normalized (join " " ws).
Proof.
  induction ws as [|w ws IH]; intros Hws.
  - split; [exact I | reflexivity].
  - inversion Hws as [|? ? [Hne Hw] Hrest]; subst.
    assert (Hhead : forall t, clean_head (w ++ t)).
    { intros t. destruct w as [|c w]; [contradiction|].
      inversion Hw; subst. simpl. assumption. }
    destruct ws as [|w' ws].
    + simpl. split.
      * rewrite <- (append_empty_r w). apply Hhead.
      * rewrite <- (append_empty_r w). now apply spaceless_then_spaced.
    + change (join " " (w :: w' :: ws))
        with (w ++ String " " (join " " (w' :: ws))).
      destruct (IH Hrest) as [Hh Hs].
      split; [apply Hhead|].
      apply spaceless_then_spaced; [assumption|].
      remember (join " " (w' :: ws)) as J eqn:EJ. clear EJ.
      destruct J as [|a r]; [reflexivity|].
      simpl in Hh.
      change (negb (is_space " " && is_space a)
              && spaced_once (String a r) = true).
      now rewrite Hh, Hs.
Qed.

(** [clean_text] returns a text without white space at its start and
    without two white space characters in a row. *)
Lemma clean_text_normalized (raw : string) : normalized (clean_text raw).
Proof.
  unfold clean_text. apply strip_normalized, join_space_normalized,
    split_whitespace_pieces.
Qed.

(** *** The sentences of a cleaned text *)

Lemma string_length_ind (P : string -> Prop) :
  (forall s,
     (forall t, (String.length t < String.length s)%nat -> P t) -> P s) ->
  forall s, P s.
Proof.
  intros step s.
  assert (H : forall n t, (String.length t < n)%nat -> P t).
  { induction n as [|n IH]; intros t Hlt; [lia|].
    apply step. intros u Hu. apply IH. lia. }
  apply (H (S (String.length s))). lia.
Qed.

Lemma split_period_space_sep (rest : string) :
  split_period_space (String "." (String " " rest))
  = "" :: split_period_space rest.
Proof. reflexivity. Qed.

Lemma split_period_space_char (c : ascii) (rest : string) :
  (c <> "."%char \/ starts_with " " rest = false) ->
  split_period_space (String c rest)
  = cons_head c (split_period_space rest).
Proof.
  intros H. destruct rest as [|c' rest']; [reflexivity|].
  change (split_period_space (String c (String c' rest')))
    with (if Ascii.eqb c "." && Ascii.eqb c' " "
          then EmptyString :: split_period_space rest'
          else cons_head c (split_period_space (String c' rest'))).
  destruct (Ascii.eqb c ".") eqn:Ec; [|reflexivity].
  destruct (Ascii.eqb c' " ") eqn:Ec'; [|reflexivity].
  apply Ascii.eqb_eq in Ec. destruct H as [H | H]; [contradiction|].
  simpl in H. congruence.
Qed.

(** Every text is in one of the two cases above. *)
Lemma split_period_space_cases (c : ascii) (rest : string) :
  (exists rest', c = "."%char /\ rest = String " " rest')
  \/ (c <> "."%char \/ starts_with " " rest = false).
Proof.
  destruct (Ascii.eqb c ".") eqn:Ec.
  - apply Ascii.eqb_eq in Ec. destruct rest as [|c' rest'].
    + right. now right.
    + destruct (Ascii.eqb c' " ") eqn:Ec'.
      * apply Ascii.eqb_eq in Ec'. left. exists rest'. now subst.
      * right. right. exact Ec'.
  - apply Ascii.eqb_neq in Ec. right. now left.
Qed.

Lemma split_period_space_nonempty (text : string) :
  exists p ps, split_period_space text = p :: ps.
Proof.
  induction text as [text IH] using string_length_ind.
  destruct text as [|c rest]; [now exists "", []|].
  destruct (split_period_space_cases c rest) as [(rest' & -> & ->) | H].
  - rewrite split_period_space_sep. now eexists _, _.
  - rewrite (split_period_space_char c rest H).
    destruct (split_period_space rest); simpl; now eexists _, _.
Qed.

Lemma join_cons (sep x : string) (xs : list string) :
  xs <> [] -> join sep (x :: xs) = x ++ sep ++ join sep xs.
Proof. destruct xs; [contradiction | reflexivity]. Qed.

Lemma join_cons_head (sep : string) (c : ascii) (p : string)
    (ps : list string) :
  join sep (cons_head c (p :: ps)) = String c (join sep (p :: ps)).
Proof. destruct ps; reflexivity. Qed.

(** Joining the sentences with the separator gives the text back. *)
Lemma join_split_period_space (text : string) :
  join ". " (split_period_space text) = text.
Proof.
  induction text as [text IH] using string_length_ind.
  destruct text as [|c rest]; [reflexivity|].
  destruct (split_period_space_cases c rest) as [(rest' & -> & ->) | H].
  - rewrite split_period_space_sep.
    destruct (split_period_space_nonempty rest') as (p & ps & E).
    rewrite join_cons by (rewrite E; discriminate).
    rewrite IH by (simpl; lia). reflexivity.
  - rewrite (split_period_space_char c rest H).
    destruct (split_period_space_nonempty rest) as (p & ps & E).
    rewrite E, join_cons_head, <- E, IH by (simpl; lia). reflexivity.
Qed.

Lemma spaced_once_tail (c : ascii) (s : string) :
  spaced_once (String c s) = true -> spaced_once s = true.
Proof.
  change (spaced_once (String c s))
    with (match s with
          | EmptyString => true
          | String b _ => negb (is_space c && is_space b)
          end && spaced_once s).
  intros H. apply andb_prop in H. now destruct H.
Qed.

Lemma spaced_once_after_space (a b : ascii) (r : string) :
  spaced_once (String a (String b r)) = true -> is_space a = true ->
  is_space b = false.
Proof.
  change (spaced_once (String a (String b r)))
    with (negb (is_space a && is_space b) && spaced_once (String b r)).
  intros H Ha. apply andb_prop in H. destruct H as [H _].
  rewrite Ha in H. now destruct (is_space b).
Qed.

Lemma split_period_space_heads (text : string) :
  spaced_once text = true ->
  Forall clean_head (tl (split_period_space text))
  /\ (clean_head text -> clean_head (hd "" (split_period_space text))).
Proof.
  induction text as [text IH] using string_length_ind.
  intros Hs. destruct text as [|c rest]; [now split|].
  destruct (split_period_space_cases c rest) as [(rest' & -> & ->) | H].
  - rewrite split_period_space_sep. split; [|intros _; exact I].
    apply spaced_once_tail in Hs.
    assert (Hs' : spaced_once rest' = true)
      by exact (spaced_once_tail _ _ Hs).
    assert (Hh' : clean_head rest').
    { destruct rest' as [|b r]; [exact I|].
      exact (spaced_once_after_space _ _ _ Hs eq_refl). }
    destruct (IH rest') as [Htl Hhd]; [simpl; lia | assumption |].
    destruct (split_period_space_nonempty rest') as (p & ps & E).
    rewrite E in *. simpl in *. constructor; auto.
  - rewrite (split_period_space_char c rest H).
    assert (Hs' : spaced_once rest = true)
      by exact (spaced_once_tail _ _ Hs).
    destruct (IH rest) as [Htl _]; [simpl; lia | assumption |].
    destruct (split_period_space_nonempty rest) as (p & ps & E).
    rewrite E in *. simpl in *. split; [assumption|]. trivial.
Qed.

(** No sentence of a cleaned text starts with white space. *)
Lemma sentences_clean_head (text : string) :
  normalized text -> Forall clean_head (split_period_space text).
Proof.
  intros [Hh Hs].
  destruct (split_period_space_heads text Hs) as [Htl Hhd].
  destruct (split_period_space_nonempty text) as (p & ps & E).
  rewrite E in *. simpl in *. constructor; auto.
Qed.

End CleanFacts.

(** ** The chunker *)

Module ChunkerFacts.
Import Py PDFProcessor Props PyFacts CleanFacts.

Lemma strip_closed_by_period (y : string) :
  closed_by_period (strip (y ++ ". ")).
Proof.
  rewrite strip_period_space. split.
  - apply period_nonempty.
  - apply last_char_period.
Qed.

Section Loop.

Variable token : Type.
Variable encode : string -> list token.
Variable max_tokens : Z.

Lemma loop_cons (s : string) (rest : list string) (st : list string * string) :
  chunk_loop encode max_tokens (s :: rest) st
  = chunk_loop encode max_tokens rest (chunk_step encode max_tokens st s).
Proof. reflexivity. Qed.

Lemma step_keeps_shape (chunks : list string) (cur sentence : string) :
  Forall closed_by_period chunks -> open_chunk cur ->
  Forall closed_by_period
    (fst (chunk_step encode max_tokens (chunks, cur) sentence))
  /\ exists y,
       snd (chunk_step encode max_tokens (chunks, cur) sentence) = y ++ ". ".
Proof.
  intros Hchunks Hcur. unfold chunk_step.
  destruct ((count_tokens encode (cur ++ sentence ++ ". ") >? max_tokens)%Z
            && truthy cur) eqn:Hsplit; simpl.
  - split.
    + apply Forall_app. split; [assumption|].
      constructor; [|constructor].
      apply andb_prop in Hsplit. destruct Hsplit as [_ Htruthy].
      destruct Hcur as [-> | [y ->]]; [discriminate|].
      apply strip_closed_by_period.
    + now exists sentence.
  - split; [assumption|].
    exists (cur ++ sentence). now rewrite append_assoc.
Qed.

Lemma loop_keeps_shape (sentences : list string) :
  forall chunks cur,
    Forall closed_by_period chunks -> open_chunk cur ->
    Forall closed_by_period
      (fst (chunk_loop encode max_tokens sentences (chunks, cur)))
    /\ open_chunk (snd (chunk_loop encode max_tokens sentences (chunks, cur))).
Proof.
  induction sentences as [|s rest IH]; intros chunks cur Hchunks Hcur.
  - simpl. now split.
  - rewrite loop_cons.
    destruct (step_keeps_shape chunks cur s Hchunks Hcur) as [H1 [y Hy]].
    destruct (chunk_step encode max_tokens (chunks, cur) s)
      as [chunks' cur'] eqn:E.
    simpl in H1, Hy. apply IH; [assumption|].
    right. now exists y.
Qed.

Lemma loop_stays_open (sentences : list string) :
  forall chunks y,
  exists y',
    snd (chunk_loop encode max_tokens sentences (chunks, y ++ ". "))
    = y' ++ ". ".
Proof.
  induction sentences as [|s rest IH]; intros chunks y.
  - now exists y.
  - rewrite loop_cons. unfold chunk_step.
    destruct ((count_tokens encode ((y ++ ". ") ++ s ++ ". ") >? max_tokens)%Z
              && truthy (y ++ ". ")).
    + apply IH.
    + rewrite <- append_assoc. apply IH.
Qed.

(** *** The two ways a turn of the loop goes *)

Lemma step_from_empty (chunks : list string) (s : string) :
  chunk_step encode max_tokens (chunks, "") s = (chunks, s ++ ". ").
Proof. unfold chunk_step. simpl. now rewrite andb_false_r. Qed.

Lemma truthy_period (y : string) : truthy (y ++ ".") = true.
Proof. destruct y; reflexivity. Qed.

Lemma truthy_open (y : string) : truthy (y ++ ". ") = true.
Proof. destruct y; reflexivity. Qed.

Lemma strip_open (y : string) : clean_head y -> strip (y ++ ". ") = y ++ ".".
Proof.
  intros H. now rewrite strip_period_space, (lstrip_clean_head y H).
Qed.

Lemma step_from_open (chunks : list string) (y s : string) :
  clean_head y ->
  chunk_step encode max_tokens (chunks, y ++ ". ") s
  = if (count_tokens encode ((y ++ ". " ++ s) ++ ". ") >? max_tokens)%Z
    then ((chunks ++ [(y ++ ".")%string])%list, s ++ ". ")
    else (chunks, (y ++ ". " ++ s) ++ ". ").
Proof.
  intros Hy. unfold chunk_step.
  rewrite truthy_open, andb_true_r, (strip_open y Hy).
  replace ((y ++ ". ") ++ s ++ ". ") with ((y ++ ". " ++ s) ++ ". ")
    by now rewrite !append_assoc.
  reflexivity.
Qed.

Lemma clean_head_extended (y s : string) :
  clean_head y -> clean_head (y ++ ". " ++ s).
Proof. destruct y; simpl; auto. Qed.

(** *** Joining the chunks *)

Lemma join_snoc_pair (sep a b : string) (l : list string) :
  join sep (l ++ [a; b])%list = join sep (l ++ [a])%list ++ sep ++ b.
Proof.
  induction l as [|x l IH]; [reflexivity|].
  rewrite <- !app_comm_cons.
  rewrite !join_cons by (destruct l; discriminate).
  now rewrite IH, !append_assoc.
Qed.

Lemma join_snoc_append (sep a b : string) (l : list string) :
  join sep (l ++ [(a ++ b)%string])%list = join sep (l ++ [a])%list ++ b.
Proof.
  induction l as [|x l IH]; [reflexivity|].
  rewrite <- !app_comm_cons.
  rewrite !join_cons by (destruct l; discriminate).
  now rewrite IH, !append_assoc.
Qed.

Lemma loop_rejoins (sentences : list string) :
  forall chunks y,
    clean_head y -> Forall clean_head sentences ->
    exists y',
      snd (chunk_loop encode max_tokens sentences (chunks, y ++ ". "))
      = y' ++ ". "
      /\ clean_head y'
      /\ join " "
           (fst (chunk_loop encode max_tokens sentences
                   (chunks, (y ++ ". ")%string))
            ++ [(y' ++ ".")%string])%list
         = join " " (chunks ++ [(y ++ ".")%string])%list
           ++ later_sentences sentences.
Proof.
  induction sentences as [|s rest IH]; intros chunks y Hy Hss.
  - exists y. simpl. now rewrite append_empty_r.
  - inversion Hss as [|? ? Hs Hrest]; subst.
    rewrite loop_cons, (step_from_open chunks y s Hy).
    destruct (count_tokens encode ((y ++ ". " ++ s) ++ ". ") >? max_tokens)%Z.
    + destruct (IH (chunks ++ [(y ++ ".")%string])%list s Hs Hrest)
        as (y' & E1 & Hy' & E2).
      exists y'. repeat split; try assumption.
      rewrite E2, <- app_assoc. simpl app.
      rewrite join_snoc_pair. simpl later_sentences.
      now rewrite !append_assoc.
    + destruct (IH chunks (y ++ ". " ++ s)
                  (clean_head_extended y s Hy) Hrest)
        as (y' & E1 & Hy' & E2).
      exists y'. repeat split; try assumption.
      rewrite E2.
      replace ((y ++ ". " ++ s) ++ ".") with ((y ++ ".") ++ " " ++ s ++ ".")
        by now rewrite !append_assoc.
      rewrite join_snoc_append. simpl later_sentences.
      now rewrite !append_assoc.
Qed.

Lemma join_then_period (s : string) (rest : list string) :
  join ". " (s :: rest) ++ "." = s ++ "." ++ later_sentences rest.
Proof.
  revert s. induction rest as [|s' rest IH]; intros s.
  - reflexivity.
  - rewrite join_cons by discriminate.
    rewrite append_assoc, append_assoc, IH. reflexivity.
Qed.

(** Joined with single spaces, the chunks of a normalized text are the
    text with one more period at its end. *)
Lemma chunk_text_rejoined (text : string) :
  normalized text ->
  join " " (chunk_text encode text max_tokens) = text ++ ".".
Proof.
  intros Hn. pose proof (sentences_clean_head text Hn) as Hss.
  rewrite <- (join_split_period_space text) at 2.
  unfold chunk_text.
  destruct (split_period_space_nonempty text) as (s & rest & E).
  rewrite E in *. inversion Hss as [|? ? Hs Hrest]; subst.
  rewrite loop_cons, step_from_empty.
  destruct (loop_rejoins rest [] s Hs Hrest) as (y' & E1 & Hy' & E2).
  destruct (chunk_loop encode max_tokens rest ([], s ++ ". "))
    as [chunks cur].
  simpl in E1, E2. subst cur.
  rewrite (strip_open y' Hy'), (truthy_period y').
  rewrite E2, join_then_period. apply append_assoc.
Qed.

(** *** The token ceiling *)

(** Dropping the space after the last period does not add tokens.  This
    is all that is asked of the encoder. *)
Hypothesis final_space_counts :
  forall s,
    (count_tokens encode (s ++ ".") <= count_tokens encode (s ++ ". "))%Z.



End Loop.

End ChunkerFacts.

(** ** The page extractor *)

Module ExtractorFacts.
Import Py PyFacts Extractor.

Lemma page_step_text (text : string) (printed : list string) (n : nat)
    (page : Page) :
  fst (page_step (text, printed) (n, page))
  = match extract_text page with
    | Returned t => text ++ page_block (n, t)
    | Raised _ => text
    end.
Proof. unfold page_step. destruct (extract_text page); reflexivity. Qed.

Lemma join_empty_cons (x : string) (xs : list string) :
  join "" (x :: xs) = x ++ join "" xs.
Proof. destruct xs; simpl; [now rewrite append_empty_r | reflexivity]. Qed.

Lemma page_loop_text (items : list (nat * Page)) :
  forall text printed,
    fst (fold_left page_step items (text, printed))
    = text ++ join "" (map page_block (extracted_pages items)).
Proof.
  induction items as [|[n page] items IH]; intros text printed.
  - simpl. now rewrite append_empty_r.
  - change (fold_left page_step ((n, page) :: items) (text, printed))
      with (fold_left page_step items (page_step (text, printed) (n, page))).
    pose proof (page_step_text text printed n page) as Hstep.
    destruct (page_step (text, printed) (n, page)) as [text' printed'].
    simpl in Hstep. rewrite IH, Hstep. simpl extracted_pages.
    destruct (extract_text page) as [t | e]; [|reflexivity].
    simpl map. now rewrite join_empty_cons, append_assoc.
Qed.

Lemma contains_prefix (needle rest : string) :
  String.prefix needle (needle ++ rest) = true.
Proof.
  induction needle as [|c needle IH]; simpl.
  - now destruct rest.
  - destruct (ascii_dec c c); [exact IH | contradiction].
Qed.

Lemma contains_here (needle hay : string) :
  String.prefix needle hay = true -> contains needle hay = true.
Proof.
  intros H. destruct hay as [|c hay'].
  - change (String.prefix needle "" || false = true). now rewrite H.
  - change (String.prefix needle (String c hay') || contains needle hay'
            = true).
    now rewrite H.
Qed.

Lemma contains_inside (needle before rest : string) :
  contains needle (before ++ needle ++ rest) = true.
Proof.
  induction before as [|c before IH].
  - change ("" ++ needle ++ rest) with (needle ++ rest).
    apply contains_here, contains_prefix.
  - simpl. rewrite IH. apply orb_true_r.
Qed.

End ExtractorFacts.

(** ** The summarisation client *)

Module SummarizerFacts.
Import Py PyFacts PDFSummarizer.

Section ClientFacts.

Variable World : Type.
Variable llm_call : string -> Run World string.
Variable sleep : World -> World.
Variable print : string -> World -> World.

(** After the fallback the selector is a key of [summary_prompts]. *)
Lemma selected_prompt (summary_type : string) :
  exists prompt,
    getitem summary_prompts
      (if negb (has_key summary_type summary_prompts) then "detailed"
       else summary_type)
    = Returned prompt.
Proof.
  unfold has_key.
  destruct (lookup summary_type summary_prompts) as [p|] eqn:E;
    cbv beta iota delta [negb]; unfold getitem.
  - rewrite E. now exists p.
  - eexists. reflexivity.
Qed.

(** [summarize_text] turns a failed request into an error text. *)
Lemma summarize_text_run (text summary_type : string) (w : World) :
  exists prompt,
    getitem summary_prompts
      (if negb (has_key summary_type summary_prompts) then "detailed"
       else summary_type)
    = Returned prompt
    /\ summarize_text World llm_call text summary_type w
       = match chain_run World llm_call prompt [("text", text)] w with
         | (Returned s, w') => (Returned s, w')
         | (Raised e, w') =>
             (Returned ("Error generating summary: " ++ e), w')
         end.
Proof.
  destruct (selected_prompt summary_type) as [prompt E].
  exists prompt. split; [exact E|].
  unfold summarize_text. rewrite E.
  unfold bind, lift_outcome, try_except, ret.
  destruct (chain_run World llm_call prompt [("text", text)] w) as [[s|e] w'];
    reflexivity.
Qed.

Lemma summarize_text_returns (text summary_type : string) (w : World) :
  exists s w',
    summarize_text World llm_call text summary_type w = (Returned s, w').
Proof.
  destruct (summarize_text_run text summary_type w) as (prompt & _ & ->).
  destruct (chain_run World llm_call prompt [("text", text)] w) as [[s|e] w'];
    eauto.
Qed.

Lemma combine_summaries_returns (chunk_summaries : list ChunkSummary)
    (summary_type : string) (w : World) :
  exists s w',
    combine_summaries World llm_call chunk_summaries summary_type w
    = (Returned s, w').
Proof.
  unfold combine_summaries.
  destruct (map summary _) as [|s0 rest]; [unfold ret; eauto|].
  unfold try_except, ret.
  destruct (chain_run World llm_call meta_prompt _ w) as [[s|e] w']; eauto.
Qed.

(** *** The loop over the chunks *)

Lemma summarize_chunk_run (total i : nat) (chunk summary_type : string)
    (acc : list ChunkSummary) (w : World) :
  exists s w1,
    summarize_text World llm_call chunk summary_type
      (print (chunk_line total i) w)
    = (Returned s, w1)
    /\ summarize_chunk World llm_call sleep print total i chunk summary_type
         acc w
       = (Returned (acc ++ [summary_entry i chunk s])%list,
          if (Z.of_nat i <? Z.of_nat total - 1)%Z then sleep w1 else w1).
Proof.
  destruct (summarize_text_returns chunk summary_type
              (print (chunk_line total i) w)) as (s & w1 & E).
  exists s, w1. split; [exact E|].
  unfold summarize_chunk, bind, do_print, try_except. rewrite E.
  destruct (Z.of_nat i <? Z.of_nat total - 1)%Z; reflexivity.
Qed.

Lemma summarize_loop_cons (total i : nat) (chunk : string)
    (rest : list string) (summary_type : string) (acc : list ChunkSummary)
    (w : World) :
  summarize_loop World llm_call sleep print total i (chunk :: rest)
    summary_type acc w
  = match summarize_chunk World llm_call sleep print total i chunk
            summary_type acc w with
    | (Returned acc', w') =>
        summarize_loop World llm_call sleep print total (S i) rest
          summary_type acc' w'
    | (Raised e, w') => (Raised e, w')
    end.
Proof. reflexivity. Qed.

Lemma summarize_loop_run (chunks : list string) :
  forall total i summary_type acc w,
  exists entries w',
    summarize_loop World llm_call sleep print total i chunks summary_type
      acc w
    = (Returned (acc ++ entries)%list, w')
    /\ List.length entries = List.length chunks
    /\ forall k chunk,
         nth_error chunks k = Some chunk ->
         exists s w1,
           summarize_text World llm_call chunk summary_type
             (print (chunk_line total (i + k))
                (snd (summarize_loop World llm_call sleep print total i
                        (firstn k chunks) summary_type acc w)))
           = (Returned s, w1)
           /\ nth_error entries k = Some (summary_entry (i + k) chunk s).
Proof.
  induction chunks as [|chunk rest IH]; intros total i summary_type acc w.
  - exists [], w. repeat split.
    + simpl. unfold ret. now rewrite app_nil_r.
    + intros [|k] c H; discriminate.
  - destruct (summarize_chunk_run total i chunk summary_type acc w)
      as (s0 & w0 & Etext & Estep).
    destruct (IH total (S i) summary_type
                (acc ++ [summary_entry i chunk s0])%list
                (if (Z.of_nat i <? Z.of_nat total - 1)%Z
                 then sleep w0 else w0))
      as (entries & w' & Eloop & Elen & Hnth).
    exists (summary_entry i chunk s0 :: entries), w'. repeat split.
    + rewrite summarize_loop_cons, Estep, Eloop.
      now rewrite <- app_assoc.
    + simpl. now rewrite Elen.
    + intros [|k] c Hc.
      * injection Hc as <-. exists s0, w0.
        rewrite Nat.add_0_r. split; [exact Etext | reflexivity].
      * simpl in Hc. destruct (Hnth k c Hc) as (s & w1 & E1 & E2).
        exists s, w1.
        change (firstn (S k) (chunk :: rest)) with (chunk :: firstn k rest).
        rewrite summarize_loop_cons, Estep.
        replace (i + S k)%nat with (S i + k)%nat by lia.
        split; [exact E1 | exact E2].
Qed.

(** What [summarize_chunks] returns, entry by entry. *)
Lemma summarize_chunks_run (chunks : list string) (summary_type : string)
    (w : World) :
  exists report w',
    summarize_chunks World llm_call sleep print chunks summary_type w
    = (Returned report, w')
    /\ total_chunks report = List.length chunks
    /\ summary_type_used report = summary_type
    /\ List.length (individual_summaries report) = List.length chunks
    /\ forall k chunk,
         nth_error chunks k = Some chunk ->
         exists s w1,
           summarize_text World llm_call chunk summary_type
             (print (chunk_line (List.length chunks) k)
                (world_at_chunk World llm_call sleep print chunks
                   summary_type w k))
           = (Returned s, w1)
           /\ nth_error (individual_summaries report) k
              = Some (summary_entry k chunk s).
Proof.
  destruct (summarize_loop_run chunks (List.length chunks) 0 summary_type []
              (print (start_line (List.length chunks)) w))
    as (entries & w1 & Eloop & Elen & Hnth).
  destruct (combine_summaries_returns entries summary_type w1)
    as (combined & w2 & Ecomb).
  eexists _, w2. split.
  - unfold summarize_chunks, bind, do_print.
    rewrite Eloop. simpl app. rewrite Ecomb. reflexivity.
  - simpl. repeat split; assumption.
Qed.

End ClientFacts.

End SummarizerFacts.

(** ** The claims about the chunker *)

Module ChunkerClaims.
Import Py PDFProcessor Props Samples PyFacts CleanFacts ChunkerFacts.





(** The source fixes [count_tokens] only up to the encoder: with one token
    per character appended text never lowers the count, with an encoder
    that merges characters into longer tokens it can. *)
Lemma count_tokens_chars_monotone (s t : string) :
  (count_tokens chars s <= count_tokens chars (s ++ t))%Z.
Proof.
  unfold count_tokens, chars.
  induction s as [|c s IH]; simpl in *; lia.
Qed.

Lemma count_tokens_merging_drops :
  (count_tokens merging ("xy" ++ "z") < count_tokens merging "xy")%Z.
Proof. reflexivity. Qed.

(** C2.  Joining the chunks does not give the cleaned text back: the loop
    puts a period and a space behind every sentence, the last one
    included, so the text comes back with one period more.  For the text
    [A. B. C.] the joined chunks are [A. B. C..], and the text [A] comes
    back as the single chunk [A.], whatever the encoder and the ceiling. *)
Theorem chunk_text_extra_period {token : Type}
    (encode : string -> list token) (max_tokens : Z) :
  clean_text "A. B. C." = "A. B. C."
  /\ join " " (chunk_text encode "A. B. C." max_tokens) = "A. B. C.."
  /\ chunk_text encode "A" max_tokens = ["A."].
Proof.
  split; [reflexivity|]. split.
  - apply (chunk_text_rejoined token encode max_tokens "A. B. C.").
    split; [reflexivity | reflexivity].
  - unfold chunk_text.
    change (split_period_space "A") with ["A"].
    rewrite loop_cons, step_from_empty. reflexivity.
Qed.

(** C3.  For the empty text [chunk_text] returns one chunk, a lone
    period, and not the empty list: [split] gives one empty sentence and
    the loop closes it with a period. *)
Theorem chunk_text_empty_text {token : Type}
    (encode : string -> list token) (max_tokens : Z) :
  chunk_text encode "" max_tokens = ["."].
Proof.
  unfold chunk_text.
  change (split_period_space "") with [""].
  rewrite loop_cons, step_from_empty. reflexivity.
Qed.

(** C10.  Every chunk that [chunk_text] returns is a non-empty string
    whose last character is a period, for every text, encoder and
    ceiling. *)
Theorem chunk_text_chunks_end_in_period {token : Type}
    (encode : string -> list token) (text : string) (max_tokens : Z) :
  Forall (fun chunk => chunk <> "" /\ last_char chunk = Some "."%char)
    (chunk_text encode text max_tokens).
Proof.
  unfold chunk_text.
  destruct (loop_keeps_shape token encode max_tokens
              (split_period_space text) [] ""
              (Forall_nil _) (or_introl eq_refl)) as [Hchunks Hcur].
  destruct (chunk_loop encode max_tokens (split_period_space text) ([], ""))
    as [chunks cur].
  simpl in Hchunks, Hcur.
  destruct (truthy (strip cur)) eqn:Ht; [|exact Hchunks].
  apply Forall_app. split; [exact Hchunks|].
  constructor; [|constructor].
  destruct Hcur as [-> | [y ->]]; [discriminate|].
  apply strip_closed_by_period.
Qed.

(** The list of chunks is never empty, so the statement above is about
    every text. *)
Lemma chunk_text_never_empty {token : Type}
    (encode : string -> list token) (text : string) (max_tokens : Z) :
  chunk_text encode text max_tokens <> [].
Proof.
  unfold chunk_text.
  destruct (split_period_space_nonempty text) as (s & rest & ->).
  rewrite loop_cons, step_from_empty.
  destruct (loop_stays_open token encode max_tokens rest [] s) as [y' E].
  destruct (chunk_loop encode max_tokens rest ([], s ++ ". "))
    as [chunks cur].
  simpl in E. subst cur.
  rewrite strip_period_space, truthy_period.
  destruct chunks; discriminate.
Qed.

End ChunkerClaims.

(** ** The claim about the page extractor *)

Module ExtractorClaims.
Import Py PyFacts Extractor ExtractorFacts.

Lemma page_block_ends_in_text (n : nat) (text : string) :
  page_block (n, text)
  = (String "010" "--- Page " ++ str_of_nat (n + 1) ++ " ---"
     ++ String "010" "")
    ++ text.
Proof. unfold page_block. simpl fst. simpl snd. now rewrite !append_assoc. Qed.

Lemma blocks_contain_texts (items : list (nat * string)) :
  forall before,
    Forall (fun item =>
              contains (snd item)
                (before ++ join "" (map page_block items)) = true)
      items.
Proof.
  induction items as [|[n t] items IH]; intros before; constructor.
  - simpl map. rewrite join_empty_cons, page_block_ends_in_text.
    simpl snd. rewrite append_assoc, <- (append_assoc before).
    apply contains_inside.
  - simpl map. rewrite join_empty_cons, <- append_assoc. apply IH.
Qed.

(** C9.  When the document can be read, [extract_text_from_pdf] returns
    whatever single pages raise: the text is the blocks of the pages whose
    extraction returned, in page order, each under the marker of its own
    page number, and so it contains the text of every such page; a page
    that raises adds nothing. *)
Theorem extract_text_skips_failed_pages (pages : list Page) :
  fst (extract_text_from_pdf (Returned pages))
  = Returned
      (join "" (map page_block (extracted_pages (enumerate 0 pages))))
  /\ Forall (fun item =>
               contains (snd item)
                 (join "" (map page_block
                             (extracted_pages (enumerate 0 pages)))) = true)
       (extracted_pages (enumerate 0 pages)).
Proof.
  split.
  - unfold extract_text_from_pdf.
    pose proof (page_loop_text (enumerate 0 pages) "" []) as H.
    destruct (fold_left page_step (enumerate 0 pages) ("", []))
      as [text printed].
    simpl in H. now rewrite H.
  - apply (blocks_contain_texts _ "").
Qed.

End ExtractorClaims.

(** ** The claims about the summarisation client *)

Module SummarizerClaims.
Import Py PyFacts PDFSummarizer SummarizerFacts Samples.

(** C5.  With a selector outside [brief], [detailed], [bullet_points] and
    [executive], [summarize_text] does in every world exactly what it does
    with [detailed], and it returns. *)
Theorem summarize_text_falls_back (World : Type)
    (llm_call : string -> Run World string) (text summary_type : string)
    (w : World) :
  ~ In summary_type ["brief"; "detailed"; "bullet_points"; "executive"] ->
  summarize_text World llm_call text summary_type w
  = summarize_text World llm_call text "detailed" w
  /\ is_raised (fst (summarize_text World llm_call text summary_type w))
     = false.
Proof.
  intros Hout.
  assert (Hkey : has_key summary_type summary_prompts = false).
  { unfold has_key, summary_prompts, lookup.
    repeat match goal with
           | |- context [String.eqb ?k summary_type] =>
               destruct (String.eqb_spec k summary_type) as [E | _];
               [exfalso; apply Hout; rewrite <- E; simpl; tauto|]
           end.
    reflexivity. }
  split.
  - unfold summarize_text. rewrite Hkey. reflexivity.
  - destruct (summarize_text_returns World llm_call text summary_type w)
      as (s & w' & ->).
    reflexivity.
Qed.

Lemma summarize_text_falls_back_witness :
  ~ In "poetic" ["brief"; "detailed"; "bullet_points"; "executive"]
  /\ (summarize_text Calls moody_llm "Some report." "poetic" 0
      = summarize_text Calls moody_llm "Some report." "detailed" 0
      /\ is_raised (fst (summarize_text Calls moody_llm "Some report."
                           "poetic" 0))
         = false).
Proof.
  assert (H : ~ In "poetic"
                ["brief"; "detailed"; "bullet_points"; "executive"]).
  { simpl. intros [H | [H | [H | [H | []]]]]; discriminate. }
  split.
  - exact H.
  - exact (summarize_text_falls_back Calls moody_llm "Some report."
             "poetic" 0 H).
Defined.

(** C4.  When the request for the chunk at index [i] raises,
    [summarize_chunks] still returns a report; the report has one entry for
    every chunk, and the entry at index [i] carries the error text, which
    contains the word Error. *)
Theorem summarize_chunks_survives_failure (World : Type)
    (llm_call : string -> Run World string) (sleep : World -> World)
    (print : string -> World -> World) (chunks : list string)
    (summary_type : string) (w : World) (i : nat) (chunk message : string) :
  nth_error chunks i = Some chunk ->
  chunk_request World llm_call sleep print chunks summary_type w i chunk
  = Raised message ->
  exists report w',
    summarize_chunks World llm_call sleep print chunks summary_type w
    = (Returned report, w')
    /\ List.length (individual_summaries report) = List.length chunks
    /\ exists entry,
         nth_error (individual_summaries report) i = Some entry
         /\ summary entry = "Error generating summary: " ++ message
         /\ contains "Error" (summary entry) = true.
Proof.
  intros Hchunk Hrequest.
  destruct (summarize_chunks_run World llm_call sleep print chunks
              summary_type w)
    as (report & w' & Erun & _ & _ & Elen & Hnth).
  exists report, w'. split; [exact Erun|]. split; [exact Elen|].
  destruct (Hnth i chunk Hchunk) as (s & w1 & Etext & Eentry).
  exists (summary_entry i chunk s). split; [exact Eentry|].
  destruct (summarize_text_run World llm_call chunk summary_type
              (print (chunk_line (List.length chunks) i)
                 (world_at_chunk World llm_call sleep print chunks
                    summary_type w i)))
    as (prompt & Eprompt & Ecases).
  unfold chunk_request in Hrequest. rewrite Eprompt in Hrequest.
  rewrite Ecases in Etext.
  destruct (chain_run World llm_call prompt [("text", chunk)] _)
    as [[s'|e] w2]; simpl in Hrequest; [discriminate|].
  injection Hrequest as ->. injection Etext as <- _.
  split; reflexivity.
Qed.

Lemma summarize_chunks_survives_failure_witness :
  nth_error ["Plain text."; "We hit the quota."; "More text."] 1
  = Some "We hit the quota."
  /\ chunk_request Calls moody_llm no_sleep no_print
       ["Plain text."; "We hit the quota."; "More text."] "brief" 0 1
       "We hit the quota."
     = Raised "quota exceeded"
  /\ exists report w',
       summarize_chunks Calls moody_llm no_sleep no_print
         ["Plain text."; "We hit the quota."; "More text."] "brief" 0
       = (Returned report, w')
       /\ List.length (individual_summaries report) = 3
       /\ exists entry,
            nth_error (individual_summaries report) 1 = Some entry
            /\ summary entry = "Error generating summary: quota exceeded"
            /\ contains "Error" (summary entry) = true.
Proof.
  split; [reflexivity|]. split; [reflexivity|].
  exact (summarize_chunks_survives_failure Calls moody_llm no_sleep no_print
           ["Plain text."; "We hit the quota."; "More text."] "brief" 0 1
           "We hit the quota." "quota exceeded" eq_refl eq_refl).
Defined.

(** C8.  [summarize_chunks] returns a report whose entries follow the
    chunks: there are as many entries as chunks, [total_chunks] is their
    number, and the entry at index [i] has chunk number [i + 1], the length
    of the chunk at index [i], and the summary that [summarize_text] gave
    for that chunk when the loop reached it. *)
Theorem summarize_chunks_keeps_order (World : Type)
    (llm_call : string -> Run World string) (sleep : World -> World)
    (print : string -> World -> World) (chunks : list string)
    (summary_type : string) (w : World) :
  exists report w',
    summarize_chunks World llm_call sleep print chunks summary_type w
    = (Returned report, w')
    /\ total_chunks report = List.length chunks
    /\ List.length (individual_summaries report) = List.length chunks
    /\ forall i chunk,
         nth_error chunks i = Some chunk ->
         exists entry,
           nth_error (individual_summaries report) i = Some entry
           /\ chunk_number entry = i + 1
           /\ original_length entry = String.length chunk
           /\ fst (summarize_text World llm_call chunk summary_type
                     (print (chunk_line (List.length chunks) i)
                        (world_at_chunk World llm_call sleep print chunks
                           summary_type w i)))
              = Returned (summary entry).
Proof.
  destruct (summarize_chunks_run World llm_call sleep print chunks
              summary_type w)
    as (report & w' & Erun & Etotal & _ & Elen & Hnth).
  exists report, w'. repeat split; try assumption.
  intros i chunk Hchunk.
  destruct (Hnth i chunk Hchunk) as (s & w1 & Etext & Eentry).
  exists (summary_entry i chunk s). rewrite Etext.
  repeat split; assumption || reflexivity.
Qed.

(** The summaries that [combine_summaries] keeps: those without the word
    Error, in order. *)
Lemma kept_summaries_nonempty (chunk_summaries : list ChunkSummary) :
  (exists c, In c chunk_summaries /\ contains "Error" (summary c) = false) ->
  map summary
    (filter (fun cs => negb (contains "Error" (summary cs))) chunk_summaries)
  <> [].
Proof.
  intros (c & Hin & Hok) Hnil.
  apply map_eq_nil in Hnil.
  assert (H : In c (filter (fun cs => negb (contains "Error" (summary cs)))
                      chunk_summaries)).
  { apply filter_In. split; [exact Hin | now rewrite Hok]. }
  rewrite Hnil in H. exact H.
Qed.

(** C6.  When at least one chunk summary is free of the word Error and the
    synthesis request raises, [combine_summaries] returns: its result is the
    heading, an empty line, and the kept summaries under the labels
    Section 1, Section 2, ... with an empty line between them. *)
Theorem combine_summaries_falls_back (World : Type)
    (llm_call : string -> Run World string)
    (chunk_summaries : list ChunkSummary) (summary_type : string)
    (w : World) (message : string) :
  (exists c, In c chunk_summaries /\ contains "Error" (summary c) = false) ->
  fst (chain_run World llm_call meta_prompt
         [("summaries",
           join (nl ++ nl)
             (section_labels 0
                (map summary
                   (filter (fun cs => negb (contains "Error" (summary cs)))
                      chunk_summaries))));
          ("summary_type", summary_type)] w)
  = Raised message ->
  fst (combine_summaries World llm_call chunk_summaries summary_type w)
  = Returned
      ("Combined Summary:" ++ nl ++ nl
       ++ join (nl ++ nl)
            (section_labels 0
               (map summary
                  (filter (fun cs => negb (contains "Error" (summary cs)))
                     chunk_summaries)))).
Proof.
  intros Hsome Hraise.
  pose proof (kept_summaries_nonempty chunk_summaries Hsome) as Hne.
  unfold combine_summaries.
  destruct (map summary
              (filter (fun cs => negb (contains "Error" (summary cs)))
                 chunk_summaries)) as [|s0 kept]; [contradiction|].
  unfold try_except, ret.
  destruct (chain_run World llm_call meta_prompt _ w) as [[s|e] w'];
    simpl in Hraise; [discriminate | reflexivity].
Qed.

Lemma combine_summaries_falls_back_witness :
  (exists c, In c sample_summaries /\ contains "Error" (summary c) = false)
  /\ fst (chain_run Calls moody_llm meta_prompt
            [("summaries",
              join (nl ++ nl)
                (section_labels 0
                   (map summary
                      (filter
                         (fun cs => negb (contains "Error" (summary cs)))
                         sample_summaries))));
             ("summary_type", "brief")] 0)
     = Raised "quota exceeded"
  /\ fst (combine_summaries Calls moody_llm sample_summaries "brief" 0)
     = Returned
         ("Combined Summary:" ++ nl ++ nl
          ++ "Section 1: First part." ++ nl ++ nl
          ++ "Section 2: The quota rules.").
Proof.
  assert (H : exists c,
             In c sample_summaries /\ contains "Error" (summary c) = false).
  { exists (summary_entry 0 "chunk one" "First part.").
    split; [now left | reflexivity]. }
  split; [exact H|]. split; [reflexivity|].
  exact (combine_summaries_falls_back Calls moody_llm sample_summaries
           "brief" 0 "quota exceeded" H eq_refl).
Defined.

End SummarizerClaims.

(** * More of the program, verified *)

(** ** The chunker, further *)

Module ChunkerExtras.
Import Py PDFProcessor Props MoreProps Samples PyFacts CleanFacts ChunkerFacts.

Lemma each_adjacent_snoc {A : Type} (R : A -> A -> Prop) (l : list A)
    (a b : A) :
  each_adjacent R (l ++ [a])%list -> R a b ->
  each_adjacent R (l ++ [a; b])%list.
Proof.
  induction l as [|x l IH]; intros H Hab.
  - simpl. auto.
  - destruct l as [|x' l].
    + simpl in *. destruct H as [Hxa _]. auto.
    + simpl in H. destruct H as [Hx Hrest].
      simpl. split; [exact Hx|]. apply IH; assumption.
Qed.

Lemma each_adjacent_last {A : Type} (R : A -> A -> Prop) (l : list A)
    (b b' : A) :
  (forall a, R a b -> R a b') ->
  each_adjacent R (l ++ [b])%list -> each_adjacent R (l ++ [b'])%list.
Proof.
  intros Hext. induction l as [|x l IH]; intros H.
  - simpl. auto.
  - destruct l as [|x' l].
    + simpl in *. destruct H as [Hxb _]. auto.
    + simpl in H. destruct H as [Hx Hrest].
      simpl. split; [exact Hx|]. apply IH. exact Hrest.
Qed.

Section Greedy.

Variable token : Type.
Variable encode : string -> list token.
Variable max_tokens : Z.
Variable all : list string.

Lemma closed_for_longer (a b x : string) :
  closed_for encode max_tokens all a b ->
  closed_for encode max_tokens all a (b ++ x).
Proof.
  intros (s & r & Hin & -> & Hover).
  exists s, (r ++ x). repeat split; try assumption.
  now rewrite !append_assoc.
Qed.

Lemma loop_greedy (sentences : list string) :
  forall chunks y,
    incl sentences all ->
    clean_head y -> Forall clean_head sentences ->
    each_adjacent (closed_for encode max_tokens all)
      (chunks ++ [(y ++ ".")%string])%list ->
    exists y',
      snd (chunk_loop encode max_tokens sentences (chunks, y ++ ". "))
      = y' ++ ". "
      /\ clean_head y'
      /\ each_adjacent (closed_for encode max_tokens all)
           (fst (chunk_loop encode max_tokens sentences
                   (chunks, (y ++ ". ")%string))
            ++ [(y' ++ ".")%string])%list.
Proof.
  induction sentences as [|s rest IH]; intros chunks y Hincl Hy Hss Hadj.
  - exists y. simpl. auto.
  - inversion Hss as [|? ? Hs Hrest]; subst.
    assert (Hincl' : incl rest all)
      by (intros x Hx; apply Hincl; now right).
    rewrite (loop_cons token encode max_tokens),
      (step_from_open token encode max_tokens chunks y s Hy).
    destruct (count_tokens encode ((y ++ ". " ++ s) ++ ". ") >? max_tokens)%Z
      eqn:Hcmp.
    + apply (IH _ s Hincl' Hs Hrest).
      rewrite <- app_assoc. simpl app.
      apply each_adjacent_snoc; [exact Hadj|].
      exists s, "". split; [apply Hincl; now left|].
      split; [reflexivity|].
      rewrite Z.gtb_ltb in Hcmp. apply Z.ltb_lt in Hcmp.
      rewrite !append_assoc in Hcmp. rewrite ?append_assoc.
      exact Hcmp.
    + apply (IH chunks _ Hincl' (clean_head_extended y s Hy) Hrest).
      apply (each_adjacent_last (closed_for encode max_tokens all) chunks
               (y ++ ".")); [|exact Hadj].
      intros a Ha.
      replace ((y ++ ". " ++ s) ++ ".") with ((y ++ ".") ++ " " ++ s ++ ".")
        by now rewrite !append_assoc.
      now apply closed_for_longer.
Qed.

End Greedy.

Section Counting.

Variable token : Type.
Variable encode : string -> list token.
Variable max_tokens : Z.

Lemma step_count (chunks : list string) (cur s : string) :
  (List.length (fst (chunk_step encode max_tokens (chunks, cur) s))
   <= S (List.length chunks))%nat
  /\ exists y, snd (chunk_step encode max_tokens (chunks, cur) s) = y ++ ". ".
Proof.
  unfold chunk_step.
  destruct ((count_tokens encode (cur ++ s ++ ". ") >? max_tokens)%Z
            && truthy cur); simpl.
  - rewrite length_app. simpl. split; [lia | now exists s].
  - split; [lia|]. exists (cur ++ s). now rewrite append_assoc.
Qed.

Lemma loop_count (sentences : list string) :
  forall chunks cur,
    (List.length (fst (chunk_loop encode max_tokens sentences (chunks, cur)))
     <= List.length chunks + List.length sentences)%nat.
Proof.
  induction sentences as [|s rest IH]; intros chunks cur.
  - simpl. lia.
  - rewrite (loop_cons token encode max_tokens).
    destruct (step_count chunks cur s) as [Hlen _].
    destruct (chunk_step encode max_tokens (chunks, cur) s)
      as [chunks' cur'].
    simpl in Hlen. specialize (IH chunks' cur'). simpl. lia.
Qed.

End Counting.

(** X1.  Joined with single spaces, the chunks of a cleaned text are the
    text itself followed by one more period, whatever the encoder and the
    ceiling: no sentence is lost, repeated or moved. *)
Theorem chunks_rejoin_to_text_and_period {token : Type}
    (encode : string -> list token) (raw : string) (max_tokens : Z) :
  join " " (chunk_text encode (clean_text raw) max_tokens)
  = clean_text raw ++ ".".
Proof.
  pose proof (clean_text_normalized raw) as Hn.
  remember (clean_text raw) as text eqn:E. clear E raw.
  exact (chunk_text_rejoined token encode max_tokens text Hn).
Qed.

(** X2.  For every cleaned text [chunk_text] returns at least one chunk
    and never more chunks than the text has sentences. *)
Theorem chunk_count_between_one_and_sentences {token : Type}
    (encode : string -> list token) (raw : string) (max_tokens : Z) :
  (1 <= List.length (chunk_text encode (clean_text raw) max_tokens)
   <= List.length (split_period_space (clean_text raw)))%nat.
Proof.
  remember (clean_text raw) as text eqn:Etext. clear Etext raw.
  unfold chunk_text.
  destruct (split_period_space_nonempty text) as (s & rest & ->).
  rewrite (loop_cons token encode max_tokens),
    (step_from_empty token encode max_tokens).
  pose proof (loop_count token encode max_tokens rest [] (s ++ ". ")) as Hle.
  destruct (loop_stays_open token encode max_tokens rest [] s) as [y' E].
  destruct (chunk_loop encode max_tokens rest ([], s ++ ". "))
    as [chunks cur].
  simpl in E, Hle. subst cur.
  rewrite strip_period_space, truthy_period, length_app. simpl. lia.
Qed.

Lemma unsplit_sentences (text : string) :
  contains ". " text = false -> split_period_space text = [text].
Proof.
  induction text as [text IH] using string_length_ind.
  intros Hno. destruct text as [|c rest]; [reflexivity|].
  assert (Hrest : contains ". " rest = false).
  { change (contains ". " (String c rest))
      with (String.prefix ". " (String c rest) || contains ". " rest)
      in Hno.
    now apply orb_false_elim in Hno. }
  destruct (split_period_space_cases c rest) as [(rest' & -> & ->) | H].
  - change (contains ". " (String "." (String " " rest')))
      with (String.prefix ". " (String "." (String " " rest'))
            || contains ". " (String " " rest')) in Hno.
    apply orb_false_elim in Hno. destruct Hno as [Hno _].
    destruct rest'; discriminate.
  - rewrite (split_period_space_char c rest H), IH
      by (simpl; lia || exact Hrest).
    reflexivity.
Qed.

(** X3.  A cleaned text in which no period is followed by a space is one
    sentence: it comes back as a single chunk, the text closed by a period,
    however low the ceiling is. *)
Theorem unsplit_text_is_one_chunk {token : Type}
    (encode : string -> list token) (raw : string) (max_tokens : Z) :
  contains ". " (clean_text raw) = false ->
  chunk_text encode (clean_text raw) max_tokens = [clean_text raw ++ "."].
Proof.
  intros Hno.
  destruct (clean_text_normalized raw) as [Hhead _].
  remember (clean_text raw) as text eqn:Etext. clear Etext raw.
  unfold chunk_text.
  rewrite (unsplit_sentences text Hno).
  rewrite (loop_cons token encode max_tokens),
    (step_from_empty token encode max_tokens).
  simpl chunk_loop. cbv iota beta.
  now rewrite strip_period_space, truthy_period, (lstrip_clean_head text Hhead).
Qed.

Lemma unsplit_text_is_one_chunk_witness :
  contains ". " (clean_text "  One long   sentence, without a break ") = false
  /\ chunk_text chars
       (clean_text "  One long   sentence, without a break ") 5
     = [clean_text "  One long   sentence, without a break " ++ "."].
Proof.
  split; [reflexivity|].
  exact (unsplit_text_is_one_chunk chars
           "  One long   sentence, without a break " 5%Z eq_refl).
Defined.

(** X4.  The packing is greedy: whenever a chunk of a cleaned text is
    followed by another one, the next chunk opens with a sentence of the
    text that did not fit, that is, the closed chunk, a space, that sentence
    and its period and space count more tokens than the ceiling. *)
Theorem chunks_are_closed_only_when_full {token : Type}
    (encode : string -> list token) (raw : string) (max_tokens : Z) :
  each_adjacent
    (fun a b =>
       exists s r,
         In s (split_period_space (clean_text raw))
         /\ b = s ++ "." ++ r
         /\ (max_tokens < count_tokens encode (a ++ " " ++ s ++ ". "))%Z)
    (chunk_text encode (clean_text raw) max_tokens).
Proof.
  pose proof (clean_text_normalized raw) as Hn.
  remember (clean_text raw) as text eqn:Etext. clear Etext raw.
  pose proof (sentences_clean_head text Hn) as Hss.
  unfold chunk_text.
  destruct (split_period_space_nonempty text) as (s & rest & E).
  rewrite E in *. inversion Hss as [|? ? Hs Hrest]; subst.
  rewrite (loop_cons token encode max_tokens),
    (step_from_empty token encode max_tokens).
  destruct (loop_greedy token encode max_tokens (s :: rest) rest [] s)
    as (y' & E1 & Hy' & H); try assumption.
  - intros x Hx. now right.
  - simpl. auto.
  - destruct (chunk_loop encode max_tokens rest ([], s ++ ". "))
      as [chunks cur].
    simpl in E1, H. subst cur.
    rewrite (strip_open y' Hy'), (truthy_period y'). exact H.
Qed.

End ChunkerExtras.

(** ** The cleaner *)

Module CleanerExtras.
Import Py PDFProcessor Props MoreProps PyFacts CleanFacts.

Lemma chars_append (s t : string) :
  list_ascii_of_string (s ++ t)
  = (list_ascii_of_string s ++ list_ascii_of_string t)%list.
Proof. induction s as [|c s IH]; simpl; [reflexivity | now rewrite IH]. Qed.

Lemma blank_special_kept (text : string) :
  Forall (fun c => is_kept c = true)
    (list_ascii_of_string (blank_special text)).
Proof.
  induction text as [|c rest IH]; simpl; constructor; [|exact IH].
  destruct (is_kept c) eqn:E; [exact E | reflexivity].
Qed.

Lemma cons_head_chars (P : ascii -> Prop) (c : ascii) (ps : list string) :
  P c ->
  Forall (fun w => Forall P (list_ascii_of_string w)) ps ->
  Forall (fun w => Forall P (list_ascii_of_string w)) (cons_head c ps).
Proof.
  intros Hc Hps. destruct ps as [|p ps]; simpl.
  - repeat constructor. exact Hc.
  - inversion Hps; subst. constructor; [|assumption].
    simpl. constructor; assumption.
Qed.

Lemma split_whitespace_chars (P : ascii -> Prop) (text : string) :
  Forall P (list_ascii_of_string text) ->
  Forall (fun w =>
            Forall (fun c => P c /\ is_space c = false)
              (list_ascii_of_string w))
    (split_whitespace text).
Proof.
  induction text as [|c rest IH]; intros H; [constructor|].
  simpl in H. inversion H as [|? ? Hc Hrest]; subst.
  specialize (IH Hrest).
  change (split_whitespace (String c rest))
    with (if is_space c then split_whitespace rest
          else match rest with
               | EmptyString => [String c EmptyString]
               | String c' _ =>
                   if is_space c'
                   then String c EmptyString :: split_whitespace rest
                   else cons_head c (split_whitespace rest)
               end).
  destruct (is_space c) eqn:Ec; [exact IH|].
  destruct rest as [|c' rest'].
  - repeat constructor; assumption.
  - destruct (is_space c').
    + constructor; [|exact IH]. repeat constructor; assumption.
    + apply cons_head_chars; [|exact IH]. now split.
Qed.

Lemma kept_unspaced_is_clean (c : ascii) :
  is_kept c = true /\ is_space c = false -> is_clean_char c = true.
Proof. intros [Hk Hs]. unfold is_clean_char. now rewrite Hk, Hs. Qed.

Lemma join_space_chars (ws : list string) :
  Forall (fun w =>
            Forall (fun c => is_kept c = true /\ is_space c = false)
              (list_ascii_of_string w)) ws ->
  Forall (fun c => is_clean_char c = true)
    (list_ascii_of_string (join " " ws)).
Proof.
  induction ws as [|w ws IH]; intros H; [constructor|].
  inversion H as [|? ? Hw Hrest]; subst.
  assert (Hw' : Forall (fun c => is_clean_char c = true)
                  (list_ascii_of_string w)).
  { eapply Forall_impl; [|exact Hw]. exact kept_unspaced_is_clean. }
  destruct ws as [|w' ws]; [exact Hw'|].
  change (join " " (w :: w' :: ws))
    with (w ++ String " " (join " " (w' :: ws))).
  rewrite chars_append. apply Forall_app. split; [exact Hw'|].
  simpl. constructor; [reflexivity | exact (IH Hrest)].
Qed.

Lemma lstrip_chars (P : ascii -> Prop) (s : string) :
  Forall P (list_ascii_of_string s) ->
  Forall P (list_ascii_of_string (lstrip s)).
Proof.
  induction s as [|c s IH]; intros H; [exact H|].
  simpl. destruct (is_space c); [|exact H].
  apply IH. now inversion H.
Qed.

Lemma rstrip_chars (P : ascii -> Prop) (s : string) :
  Forall P (list_ascii_of_string s) ->
  Forall P (list_ascii_of_string (rstrip s)).
Proof.
  induction s as [|c s IH]; intros H; [exact H|].
  inversion H as [|? ? Hc Hrest]; subst.
  simpl. destruct (negb (truthy (rstrip s)) && is_space c); simpl.
  - constructor.
  - constructor; [exact Hc | exact (IH Hrest)].
Qed.

Lemma rstrip_clean_tail (s : string) : clean_tail (rstrip s).
Proof.
  unfold clean_tail. induction s as [|c s IH]; [exact I|].
  simpl rstrip.
  destruct (truthy (rstrip s)) eqn:Et; simpl negb; cbv iota beta.
  - simpl andb. cbv iota.
    destruct (rstrip s) as [|a r] eqn:Er; [discriminate|].
    exact IH.
  - destruct (rstrip s) as [|a r] eqn:Er; [|discriminate].
    simpl andb. destruct (is_space c) eqn:Ec; [exact I|].
    simpl. exact Ec.
Qed.

(** X5.  Whatever the raw text, [clean_text] returns words separated by
    single spaces: every character is a word character, one of the marks
    [. , ! ? ; : - ( )] or a space; no white space stands at the start or
    at the end, and none follows another. *)
Theorem clean_text_is_words_and_single_spaces (raw : string) :
  Forall (fun c => is_clean_char c = true)
    (list_ascii_of_string (clean_text raw))
  /\ clean_head (clean_text raw)
  /\ clean_tail (clean_text raw)
  /\ spaced_once (clean_text raw) = true.
Proof.
  destruct (clean_text_normalized raw) as [Hhead Hspaced].
  split; [|split; [exact Hhead | split; [|exact Hspaced]]].
  - unfold clean_text, strip.
    apply rstrip_chars, lstrip_chars, join_space_chars.
    apply split_whitespace_chars, blank_special_kept.
  - unfold clean_text, strip. apply rstrip_clean_tail.
Qed.

(** The special tokens of the encoder are written between [<|] and [|>]:
    a cleaned text holds none of these characters, so [encode] does not
    raise on it. *)
Lemma clean_text_holds_no_special_token (raw : string) :
  Forall (fun c => c <> "<"%char /\ c <> "|"%char /\ c <> ">"%char)
    (list_ascii_of_string (clean_text raw)).
Proof.
  assert (H : Forall (fun c => is_clean_char c = true)
                (list_ascii_of_string (clean_text raw))).
  { unfold clean_text, strip.
    apply rstrip_chars, lstrip_chars, join_space_chars.
    apply split_whitespace_chars, blank_special_kept. }
  refine (Forall_impl _ _ H).
  intros c Hc. repeat split; intros ->; discriminate.
Qed.

End CleanerExtras.

(** ** The page extractor, further *)

Module ExtractorExtras.
Import Py Extractor MoreProps PyFacts ExtractorFacts.

Lemma page_loop_printed (items : list (nat * Page)) :
  forall text printed,
    snd (fold_left page_step items (text, printed))
    = (printed ++ map failure_line (failed_pages items))%list.
Proof.
  induction items as [|[n page] items IH]; intros text printed.
  - simpl. now rewrite app_nil_r.
  - change (fold_left page_step ((n, page) :: items) (text, printed))
      with (fold_left page_step items (page_step (text, printed) (n, page))).
    unfold page_step at 2. simpl failed_pages.
    destruct (extract_text page) as [t | e].
    + apply IH.
    + rewrite IH, <- app_assoc. reflexivity.
Qed.

Lemma pages_accounted (items : list (nat * Page)) :
  (List.length (extracted_pages items) + List.length (failed_pages items)
   = List.length items)%nat.
Proof.
  induction items as [|[n page] items IH]; [reflexivity|].
  simpl. destruct (extract_text page); simpl; lia.
Qed.

Lemma enumerate_length {A : Type} (xs : list A) :
  forall start, List.length (enumerate start xs) = List.length xs.
Proof.
  induction xs as [|x xs IH]; intros start; simpl; [reflexivity|].
  now rewrite IH.
Qed.

(** X6.  For a readable document [extract_text_from_pdf] prints one line
    for every page that raised, in page order, naming the page by its
    number and giving the message; every page of the document either adds
    its block to the text or its line to the console. *)
Theorem every_page_is_extracted_or_logged (pages : list Page) :
  snd (extract_text_from_pdf (Returned pages))
  = map failure_line (failed_pages (enumerate 0 pages))
  /\ (List.length (extracted_pages (enumerate 0 pages))
      + List.length (snd (extract_text_from_pdf (Returned pages)))
      = List.length pages)%nat.
Proof.
  assert (E : snd (extract_text_from_pdf (Returned pages))
              = map failure_line (failed_pages (enumerate 0 pages))).
  { unfold extract_text_from_pdf.
    pose proof (page_loop_printed (enumerate 0 pages) "" []) as H.
    destruct (fold_left page_step (enumerate 0 pages) ("", []))
      as [text printed].
    exact H. }
  split; [exact E|].
  rewrite E, length_map, pages_accounted. apply enumerate_length.
Qed.

End ExtractorExtras.

(** ** The summarisation client, further *)

Module SummarizerExtras.
Import Py PyMore PDFSummarizer Analysis Utils Props MoreProps Samples.
Import PyFacts CleanFacts ExtractorFacts SummarizerFacts CleanerExtras.

Lemma filter_kept_idempotent (chunk_summaries : list ChunkSummary) :
  filter (fun cs => negb (contains "Error" (summary cs)))
    (filter (fun cs => negb (contains "Error" (summary cs)))
       chunk_summaries)
  = filter (fun cs => negb (contains "Error" (summary cs))) chunk_summaries.
Proof.
  induction chunk_summaries as [|c rest IH]; [reflexivity|].
  simpl. destruct (negb (contains "Error" (summary c))) eqn:E; simpl.
  - now rewrite E, IH.
  - exact IH.
Qed.

(** X8.  A chunk summary that contains the word Error never reaches the
    synthesis: [combine_summaries] does with a list exactly what it does
    with the list without those entries. *)
Theorem combine_summaries_ignores_error_entries (World : Type)
    (llm_call : string -> Run World string)
    (chunk_summaries : list ChunkSummary) (summary_type : string)
    (w : World) :
  combine_summaries World llm_call chunk_summaries summary_type w
  = combine_summaries World llm_call
      (filter (fun cs => negb (contains "Error" (summary cs)))
         chunk_summaries)
      summary_type w.
Proof.
  unfold combine_summaries. now rewrite filter_kept_idempotent.
Qed.

(** X9.  When every chunk summary contains the word Error (or there is
    none), [combine_summaries] returns the fixed text and sends no request:
    the world is left as it was. *)
Theorem combine_summaries_without_valid_summary (World : Type)
    (llm_call : string -> Run World string)
    (chunk_summaries : list ChunkSummary) (summary_type : string)
    (w : World) :
  Forall (fun cs => contains "Error" (summary cs) = true) chunk_summaries ->
  combine_summaries World llm_call chunk_summaries summary_type w
  = (Returned "No valid summaries were generated.", w).
Proof.
  intros Hall.
  assert (E : filter (fun cs => negb (contains "Error" (summary cs)))
                chunk_summaries = []).
  { induction Hall as [|c rest Hc _ IH]; [reflexivity|].
    simpl. now rewrite Hc. }
  unfold combine_summaries. now rewrite E.
Qed.

Lemma combine_summaries_without_valid_summary_witness :
  Forall (fun cs => contains "Error" (summary cs) = true)
    [ summary_entry 0 "chunk one" "Error generating summary: timeout";
      summary_entry 1 "chunk two" "Error generating summary: quota" ]
  /\ combine_summaries Calls moody_llm
       [ summary_entry 0 "chunk one" "Error generating summary: timeout";
         summary_entry 1 "chunk two" "Error generating summary: quota" ]
       "brief" 7
     = (Returned "No valid summaries were generated.", 7).
Proof.
  assert (H : Forall (fun cs => contains "Error" (summary cs) = true)
                [ summary_entry 0 "chunk one"
                    "Error generating summary: timeout";
                  summary_entry 1 "chunk two"
                    "Error generating summary: quota" ]).
  { repeat constructor. }
  split; [exact H|].
  exact (combine_summaries_without_valid_summary Calls moody_llm _ "brief" 7
           H).
Defined.

(** X10.  In the report of [summarize_chunks] the recorded length of every
    summary is the length of its text, for the error texts as well: the
    zero of the [except] branch is never written. *)
Theorem summary_lengths_are_exact (World : Type)
    (llm_call : string -> Run World string) (sleep : World -> World)
    (print : string -> World -> World) (chunks : list string)
    (summary_type : string) (w : World) :
  exists report w',
    summarize_chunks World llm_call sleep print chunks summary_type w
    = (Returned report, w')
    /\ Forall (fun entry =>
                 summary_length entry = String.length (summary entry))
         (individual_summaries report).
Proof.
  destruct (summarize_chunks_run World llm_call sleep print chunks
              summary_type w)
    as (report & w' & Erun & _ & _ & Elen & Hnth).
  exists report, w'. split; [exact Erun|].
  apply Forall_forall. intros entry Hin.
  apply In_nth_error in Hin. destruct Hin as [k Hk].
  assert (Hlt : (k < List.length chunks)%nat).
  { rewrite <- Elen. apply nth_error_Some. now rewrite Hk. }
  destruct (nth_error chunks k) as [chunk|] eqn:Hchunk.
  - destruct (Hnth k chunk Hchunk) as (s & w1 & _ & Eentry).
    rewrite Hk in Eentry. injection Eentry as ->. reflexivity.
  - apply nth_error_None in Hchunk. lia.
Qed.

Lemma take_take (n : nat) (s : string) : take n (take n s) = take n s.
Proof.
  revert s. induction n as [|n IH]; intros s; [reflexivity|].
  destruct s as [|c s]; [reflexivity|]. simpl. now rewrite IH.
Qed.

(** X11.  [analyze_document_structure] looks at the first 3000 characters
    only: it does with a text exactly what it does with that prefix. *)
Theorem analysis_reads_first_3000_characters (World : Type)
    (llm_call : string -> Run World string) (text : string) (w : World) :
  analyze_document_structure World llm_call text w
  = analyze_document_structure World llm_call (take 3000 text) w.
Proof.
  unfold analyze_document_structure. now rewrite take_take.
Qed.

Lemma rstrip_idempotent (s : string) : rstrip (rstrip s) = rstrip s.
Proof.
  induction s as [|c s IH]; [reflexivity|].
  simpl rstrip at 2 3.
  destruct (negb (truthy (rstrip s)) && is_space c) eqn:E; [reflexivity|].
  simpl. now rewrite IH, E.
Qed.

Lemma lstrip_head (s : string) : clean_head (lstrip s).
Proof.
  induction s as [|c s IH]; [exact I|].
  simpl. destruct (is_space c) eqn:E; [exact IH | exact E].
Qed.

Lemma strip_idempotent (s : string) : strip (strip s) = strip s.
Proof.
  unfold strip.
  rewrite (lstrip_clean_head (rstrip (lstrip s)))
    by apply rstrip_clean_head, lstrip_head.
  apply rstrip_idempotent.
Qed.

Lemma split_char_pieces (c : ascii) (s : string) :
  Forall (fun piece =>
            Forall (fun a => a <> c) (list_ascii_of_string piece))
    (split_char c s).
Proof.
  induction s as [|a rest IH]; simpl.
  - repeat constructor.
  - destruct (Ascii.eqb_spec a c) as [-> | Hne].
    + constructor; [constructor | exact IH].
    + now apply cons_head_chars.
Qed.

Lemma absent_char_not_contained (c : ascii) (s : string) :
  Forall (fun a => a <> c) (list_ascii_of_string s) ->
  contains (String c "") s = false.
Proof.
  induction s as [|a s IH]; intros H; [reflexivity|].
  inversion H as [|? ? Hne Hrest]; subst.
  change (contains (String c "") (String a s))
    with (String.prefix (String c "") (String a s)
          || contains (String c "") s).
  rewrite (IH Hrest), orb_false_r. simpl.
  destruct (ascii_dec c a) as [-> | _]; [contradiction | reflexivity].
Qed.

Lemma in_firstn {A : Type} (n : nat) (l : list A) (x : A) :
  In x (firstn n l) -> In x l.
Proof.
  intros H. rewrite <- (firstn_skipn n l). apply in_or_app. now left.
Qed.

Lemma quotes_of_response (response : string) :
  Forall (fun q =>
            q <> "" /\ strip q = q /\ contains nl q = false
            /\ In q (map strip (split_char "010" response)))
    (firstn 10
       (map strip
          (filter (fun quote => truthy (strip quote))
             (split_char "010" response)))).
Proof.
  apply Forall_forall. intros q Hq.
  apply in_firstn in Hq. apply in_map_iff in Hq.
  destruct Hq as (piece & <- & Hpiece).
  apply filter_In in Hpiece. destruct Hpiece as [Hin Htruthy].
  repeat split.
  - intros E. now rewrite E in Htruthy.
  - apply strip_idempotent.
  - apply absent_char_not_contained. unfold strip.
    apply rstrip_chars, lstrip_chars.
    pose proof (split_char_pieces "010" response) as H.
    rewrite Forall_forall in H. exact (H piece Hin).
  - apply in_map. exact Hin.
Qed.

(** X12.  [extract_key_quotes] always returns, with at most ten quotes, none
    of them empty. *)
Theorem key_quotes_are_at_most_ten (World : Type)
    (llm_call : string -> Run World string) (text : string) (w : World) :
  exists quotes w',
    extract_key_quotes World llm_call text w = (Returned quotes, w')
    /\ (List.length quotes <= 10)%nat
    /\ Forall (fun q => q <> "") quotes.
Proof.
  unfold extract_key_quotes, try_except, bind, ret.
  destruct (chain_run World llm_call quotes_prompt [("text", text)] w)
    as [[response | e] w'].
  - eexists _, w'. split; [reflexivity|]. split.
    + apply firstn_le_length.
    + eapply Forall_impl; [|exact (quotes_of_response response)].
      now intros q [H _].
  - eexists _, w'. split; [reflexivity|]. split; [simpl; lia|].
    repeat constructor. discriminate.
Qed.

(** X13.  When the request returns, every quote is a line of the response
    with the white space around it removed: it has no white space at
    either end and no line break inside. *)
Theorem key_quotes_are_stripped_lines (World : Type)
    (llm_call : string -> Run World string) (text response : string)
    (w : World) :
  fst (chain_run World llm_call quotes_prompt [("text", text)] w)
  = Returned response ->
  exists quotes,
    fst (extract_key_quotes World llm_call text w) = Returned quotes
    /\ Forall (fun q =>
                 strip q = q /\ contains nl q = false
                 /\ In q (map strip (split_char "010" response)))
         quotes.
Proof.
  intros Hresponse.
  unfold extract_key_quotes, try_except, bind, ret.
  destruct (chain_run World llm_call quotes_prompt [("text", text)] w)
    as [[response' | e] w']; simpl in Hresponse; [|discriminate].
  injection Hresponse as ->.
  eexists. split; [reflexivity|].
  eapply Forall_impl; [|exact (quotes_of_response response)].
  now intros q (_ & H).
Qed.

Lemma key_quotes_are_stripped_lines_witness :
  fst (chain_run Calls MoreSamples.lined_llm quotes_prompt
         [("text", "Some text.")] 0)
  = Returned ("  First quote. " ++ nl ++ "   " ++ nl ++ "Second quote")
  /\ exists quotes,
       fst (extract_key_quotes Calls MoreSamples.lined_llm "Some text." 0)
       = Returned quotes
       /\ Forall (fun q =>
                    strip q = q /\ contains nl q = false
                    /\ In q (map strip
                               (split_char "010"
                                  ("  First quote. " ++ nl ++ "   " ++ nl
                                   ++ "Second quote"))))
            quotes.
Proof.
  split; [reflexivity|].
  exact (key_quotes_are_stripped_lines Calls MoreSamples.lined_llm
           "Some text."
           ("  First quote. " ++ nl ++ "   " ++ nl ++ "Second quote") 0
           eq_refl).
Defined.

End SummarizerExtras.

(** ** What the client does to the world *)

Module TraceExtras.
Import Py PyMore PDFSummarizer Tracing Samples.
Import PyFacts SummarizerFacts.

Lemma format_fills_text (key : string) (prompt : PromptTemplate)
    (text : string) :
  lookup key summary_prompts = Some prompt ->
  format prompt [("text", text)] = Returned (filled prompt text).
Proof.
  unfold summary_prompts, lookup.
  repeat match goal with
         | |- context [String.eqb ?k key] => destruct (String.eqb k key)
         end;
    intros E; try discriminate; injection E as <-; reflexivity.
Qed.

Section Traces.

Variable World : Type.
Variable llm_call : string -> Run World string.
Variable sleep : World -> World.
Variable print : string -> World -> World.

Lemma traced_summarize_text (text summary_type : string)
    (st : Traced World) :
  exists prompt s w',
    getitem summary_prompts
      (if negb (has_key summary_type summary_prompts) then "detailed"
       else summary_type)
    = Returned prompt
    /\ summarize_text (Traced World) (traced_llm World llm_call) text
         summary_type st
       = (Returned s, (w', (snd st ++ [Asked (filled prompt text)])%list)).
Proof.
  destruct (summarize_text_run (Traced World) (traced_llm World llm_call)
              text summary_type st) as (prompt & Eprompt & ->).
  exists prompt.
  assert (Hfill : format prompt [("text", text)]
                  = Returned (filled prompt text)).
  { unfold getitem in Eprompt.
    destruct (lookup _ summary_prompts) as [p|] eqn:El; [|discriminate].
    injection Eprompt as <-. exact (format_fills_text _ _ _ El). }
  unfold chain_run, bind, lift_outcome. rewrite Hfill.
  unfold traced_llm.
  destruct (llm_call (filled prompt text) (fst st)) as [[s|e] w'];
    eexists _, w'; (split; [exact Eprompt | reflexivity]).
Qed.

Lemma selected_prompt_unique (summary_type : string)
    (p q : PromptTemplate) :
  getitem summary_prompts
    (if negb (has_key summary_type summary_prompts) then "detailed"
     else summary_type)
  = Returned p ->
  getitem summary_prompts
    (if negb (has_key summary_type summary_prompts) then "detailed"
     else summary_type)
  = Returned q ->
  p = q.
Proof. intros Hp Hq. rewrite Hp in Hq. now injection Hq. Qed.

Lemma traced_summarize_chunk (prompt : PromptTemplate) (total i : nat)
    (chunk summary_type : string) (acc : list ChunkSummary)
    (st : Traced World) :
  getitem summary_prompts
    (if negb (has_key summary_type summary_prompts) then "detailed"
     else summary_type)
  = Returned prompt ->
  exists entry w',
    summarize_chunk (Traced World) (traced_llm World llm_call)
      (traced_sleep World sleep) (traced_print World print) total i chunk
      summary_type acc st
    = (Returned (acc ++ [entry])%list,
       (w',
        (snd st
         ++ [Printed (chunk_line total i); Asked (filled prompt chunk)]
         ++ (if (Z.of_nat i <? Z.of_nat total - 1)%Z then [Slept]
             else []))%list)).
Proof.
  intros Eprompt.
  destruct (traced_summarize_text chunk summary_type
              (traced_print World print (chunk_line total i) st))
    as (prompt' & s & w1 & Eprompt' & Etext).
  rewrite (selected_prompt_unique summary_type prompt' prompt Eprompt'
             Eprompt) in Etext.
  unfold summarize_chunk, bind, do_print, try_except.
  rewrite Etext. simpl snd.
  destruct (Z.of_nat i <? Z.of_nat total - 1)%Z.
  - eexists _, _. unfold do_sleep, ret, traced_sleep. simpl.
    rewrite <- !app_assoc. reflexivity.
  - eexists _, _. unfold ret. simpl.
    rewrite <- !app_assoc. reflexivity.
Qed.

Lemma traced_summarize_loop (prompt : PromptTemplate) (summary_type : string)
    (chunks : list string) :
  getitem summary_prompts
    (if negb (has_key summary_type summary_prompts) then "detailed"
     else summary_type)
  = Returned prompt ->
  forall total i acc st,
  exists entries w',
    summarize_loop (Traced World) (traced_llm World llm_call)
      (traced_sleep World sleep) (traced_print World print) total i chunks
      summary_type acc st
    = (Returned entries,
       (w', (snd st ++ loop_events prompt total i chunks)%list)).
Proof.
  intros Eprompt.
  induction chunks as [|chunk rest IH]; intros total i acc st.
  - exists acc, (fst st). simpl. unfold ret. rewrite app_nil_r.
    now destruct st.
  - destruct (traced_summarize_chunk prompt total i chunk summary_type acc
                st Eprompt) as (entry & w1 & Estep).
    rewrite summarize_loop_cons, Estep.
    destruct (IH total (S i) (acc ++ [entry])%list
                (w1,
                 (snd st
                  ++ [Printed (chunk_line total i);
                      Asked (filled prompt chunk)]
                  ++ (if (Z.of_nat i <? Z.of_nat total - 1)%Z then [Slept]
                      else []))%list))
      as (entries & w' & Eloop).
    exists entries, w'. rewrite Eloop. simpl snd.
    simpl loop_events. rewrite <- !app_assoc. reflexivity.
Qed.

Lemma format_meta_returns (summaries summary_type : string) :
  exists p,
    format meta_prompt
      [("summaries", summaries); ("summary_type", summary_type)]
    = Returned p.
Proof. eexists. vm_compute. reflexivity. Qed.

Lemma traced_combine_summaries (chunk_summaries : list ChunkSummary)
    (summary_type : string) (st : Traced World) :
  exists combined w' tail,
    combine_summaries (Traced World) (traced_llm World llm_call)
      chunk_summaries summary_type st
    = (Returned combined, (w', (snd st ++ tail)%list))
    /\ match map summary
               (filter (fun cs => negb (contains "Error" (summary cs)))
                  chunk_summaries) with
       | [] => tail = []
       | _ :: _ => exists p, tail = [Asked p]
       end.
Proof.
  unfold combine_summaries.
  destruct (map summary
              (filter (fun cs => negb (contains "Error" (summary cs)))
                 chunk_summaries)) as [|s0 kept].
  - exists "No valid summaries were generated.", (fst st), [].
    unfold ret. rewrite app_nil_r. split; [now destruct st | reflexivity].
  - destruct (format_meta_returns
                (join (nl ++ nl) (section_labels 0 (s0 :: kept)))
                summary_type) as [p Ep].
    unfold try_except, chain_run, bind, lift_outcome. rewrite Ep.
    unfold traced_llm, ret.
    destruct (llm_call p (fst st)) as [[s|e] w'];
      eexists _, w', [Asked p]; (split; [reflexivity | now exists p]).
Qed.

End Traces.

(** X14.  In a world that records what is done to it, [summarize_chunks]
    prints its opening line and then, for each chunk in order, prints the
    progress line, sends one request made of the selected template with
    the chunk in the place of its variable, and pauses, except after the
    last chunk.  After the loop it sends one more request when some
    summary is free of the word Error, and nothing otherwise. *)
Theorem summarize_chunks_asks_once_per_chunk (World : Type)
    (llm_call : string -> Run World string) (sleep : World -> World)
    (print : string -> World -> World) (chunks : list string)
    (summary_type : string) (w : World) :
  exists prompt report w' tail,
    getitem summary_prompts
      (if negb (has_key summary_type summary_prompts) then "detailed"
       else summary_type)
    = Returned prompt
    /\ summarize_chunks (Traced World) (traced_llm World llm_call)
         (traced_sleep World sleep) (traced_print World print) chunks
         summary_type (w, [])
       = (Returned report,
          (w',
           (Printed (start_line (List.length chunks))
            :: loop_events prompt (List.length chunks) 0 chunks
            ++ tail)%list))
    /\ match map summary
               (filter (fun cs => negb (contains "Error" (summary cs)))
                  (individual_summaries report)) with
       | [] => tail = []
       | _ :: _ => exists p, tail = [Asked p]
       end.
Proof.
  destruct (selected_prompt summary_type) as [prompt Eprompt].
  destruct (traced_summarize_loop World llm_call sleep print prompt
              summary_type chunks Eprompt (List.length chunks) 0 []
              (traced_print World print (start_line (List.length chunks))
                 (w, [])))
    as (entries & w1 & Eloop).
  destruct (traced_combine_summaries World llm_call entries summary_type
              (w1,
               (snd (traced_print World print
                       (start_line (List.length chunks)) (w, []))
                ++ loop_events prompt (List.length chunks) 0 chunks)%list))
    as (combined & w2 & tail & Ecombine & Htail).
  exists prompt,
    {| individual_summaries := entries;
       combined_summary := combined;
       total_chunks := List.length chunks;
       summary_type_used := summary_type |},
    w2, tail.
  split; [exact Eprompt|]. split; [|exact Htail].
  unfold summarize_chunks, bind, do_print.
  rewrite Eloop, Ecombine. reflexivity.
Qed.

End TraceExtras.

(** ** The text export *)

Module UtilsExtras.
Import Py PDFSummarizer Utils MoreProps.
Import PyFacts ExtractorFacts.

Lemma export_loop (entries : list ChunkSummary) :
  forall content,
    fold_left export_step entries content
    = content ++ join "" (map export_block entries).
Proof.
  induction entries as [|e entries IH]; intros content.
  - simpl. now rewrite append_empty_r.
  - simpl fold_left. rewrite IH. simpl map. rewrite join_empty_cons.
    unfold export_step, export_block. now rewrite !append_assoc.
Qed.

Lemma joined_blocks_contain {A : Type} (block inner : A -> string)
    (items : list A) :
  (forall a, exists pre post, block a = pre ++ inner a ++ post) ->
  forall before,
    Forall (fun a =>
              contains (inner a) (before ++ join "" (map block items))
              = true)
      items.
Proof.
  intros Hblock. induction items as [|a items IH]; intros before;
    constructor.
  - simpl map. rewrite join_empty_cons.
    destruct (Hblock a) as (pre & post & ->).
    rewrite !append_assoc, <- (append_assoc before pre).
    apply contains_inside.
  - simpl map. rewrite join_empty_cons, <- append_assoc. apply IH.
Qed.

(** X15.  The text export is a heading part that does not depend on the
    chunk summaries, followed by one block for every chunk summary of the
    report, in order, the error texts included; so every summary text is
    in the export. *)
Theorem export_lists_every_chunk_summary (title : string -> string)
    (now : string) (summary_data : Report) (filename : string) :
  export_summary_to_text title now summary_data filename
  = export_summary_to_text title now (without_entries summary_data) filename
    ++ join "" (map export_block (individual_summaries summary_data))
  /\ Forall (fun entry =>
               contains (summary entry)
                 (export_summary_to_text title now summary_data filename)
               = true)
       (individual_summaries summary_data).
Proof.
  assert (E : export_summary_to_text title now summary_data filename
              = export_summary_to_text title now
                  (without_entries summary_data) filename
                ++ join "" (map export_block
                              (individual_summaries summary_data))).
  { unfold export_summary_to_text. cbv zeta.
    rewrite export_loop. reflexivity. }
  split; [exact E|].
  rewrite E. apply joined_blocks_contain.
  intros a. unfold export_block.
  exists ("Chunk " ++ str_of_nat (chunk_number a) ++ ":" ++ nl), (nl ++ nl).
  now rewrite !append_assoc.
Qed.

End UtilsExtras.

(** ** The cleaner after the extractor *)

Module PipelineFacts.
Import Py PyMore PDFProcessor Extractor PDFSummarizer Props MoreProps.
Import PyFacts CleanFacts ExtractorFacts CleanerExtras.

(** *** Texts and their lines *)

Lemma split_char_nonempty (c : ascii) (s : string) :
  exists l ls, split_char c s = l :: ls.
Proof.
  destruct s as [|a rest]; simpl; [now eexists _, _|].
  destruct (Ascii.eqb a c); [now eexists _, _|].
  destruct (split_char c rest); simpl; now eexists _, _.
Qed.

Lemma split_char_app (c : ascii) (a b : string) :
  split_char c (a ++ String c b) = (split_char c a ++ split_char c b)%list.
Proof.
  induction a as [|x a IH]; simpl.
  - now rewrite Ascii.eqb_refl.
  - rewrite IH. destruct (Ascii.eqb x c); [reflexivity|].
    destruct (split_char_nonempty c a) as (l & ls & ->). reflexivity.
Qed.

Lemma join_split_char (c : ascii) (s : string) :
  join (String c "") (split_char c s) = s.
Proof.
  induction s as [|a rest IH]; [reflexivity|].
  simpl. destruct (split_char_nonempty c rest) as (l & ls & E).
  destruct (Ascii.eqb_spec a c) as [-> | Hne].
  - rewrite join_cons by (rewrite E; discriminate). now rewrite IH.
  - rewrite E, join_cons_head, <- E, IH. reflexivity.
Qed.

(** *** The steps of [clean_text] that work line by line *)

Lemma squeeze_cons (c a : ascii) (rest : string) :
  squeeze c (String a rest)
  = if Ascii.eqb a c && starts_with c rest then squeeze c rest
    else String a (squeeze c rest).
Proof. reflexivity. Qed.

Lemma starts_with_space_line (a b : string) :
  starts_with " " (a ++ String "010" b) = starts_with " " a.
Proof. now destruct a. Qed.

Lemma squeeze_space_line (a b : string) :
  squeeze " " (a ++ String "010" b)
  = squeeze " " a ++ String "010" (squeeze " " b).
Proof.
  induction a as [|c a IH].
  - change ("" ++ String "010" b) with (String "010" b).
    rewrite squeeze_cons. reflexivity.
  - change (String c a ++ String "010" b)
      with (String c (a ++ String "010" b)).
    rewrite !squeeze_cons, starts_with_space_line, IH.
    destruct (Ascii.eqb c " " && starts_with " " a); reflexivity.
Qed.

Lemma blank_special_line (a b : string) :
  blank_special (a ++ String "010" b)
  = blank_special a ++ String "010" (blank_special b).
Proof.
  induction a as [|c a IH]; [reflexivity|].
  simpl. now rewrite IH.
Qed.

Lemma prefix_empty (s : string) : String.prefix "" s = true.
Proof. now destruct s. Qed.

(** A pattern without a line break matches in front of a line break or
    not at all. *)
Lemma prefix_line (p s b : string) :
  Forall (fun c => c <> "010"%char) (list_ascii_of_string p) ->
  String.prefix p (s ++ String "010" b) = String.prefix p s.
Proof.
  revert s. induction p as [|x p IH]; intros s Hp.
  - now rewrite !prefix_empty.
  - inversion Hp as [|? ? Hx Hrest]; subst.
    destruct s as [|y s]; simpl.
    + destruct (ascii_dec x "010") as [E | _]; [contradiction | reflexivity].
    + destruct (ascii_dec x y); [now apply IH | reflexivity].
Qed.

Lemma prefix_length (p s : string) :
  String.prefix p s = true -> (String.length p <= String.length s)%nat.
Proof.
  revert s. induction p as [|x p IH]; intros s H; [simpl; lia|].
  destruct s as [|y s]; [discriminate|].
  simpl in H. destruct (ascii_dec x y); [|discriminate].
  apply IH in H. simpl. lia.
Qed.

Lemma drop_app (n : nat) (s t : string) :
  (n <= String.length s)%nat -> drop n (s ++ t) = drop n s ++ t.
Proof.
  revert s. induction n as [|n IH]; intros s H.
  - now destruct s.
  - destruct s as [|c s]; [simpl in H; lia|].
    simpl. apply IH. simpl in H. lia.
Qed.

Lemma drop_length (n : nat) (s : string) :
  String.length (drop n s) = (String.length s - n)%nat.
Proof.
  revert s. induction n as [|n IH]; intros s.
  - destruct s; simpl; lia.
  - destruct s as [|c s]; [reflexivity|]. simpl. apply IH.
Qed.

Lemma digit_run_line (s b : string) :
  digit_run (s ++ String "010" b) = digit_run s.
Proof.
  induction s as [|c s IH]; [reflexivity|].
  simpl. destruct (is_digit c); [now rewrite IH | reflexivity].
Qed.

Lemma digit_run_length (s : string) :
  (digit_run s <= String.length s)%nat.
Proof.
  induction s as [|c s IH]; simpl; [lia|].
  destruct (is_digit c); lia.
Qed.

Lemma page_marker_at_line (s b : string) :
  page_marker_at (s ++ String "010" b) = page_marker_at s.
Proof.
  unfold page_marker_at.
  rewrite prefix_line by (repeat constructor; discriminate).
  destruct (String.prefix "--- Page " s) eqn:Ep; [|reflexivity].
  apply prefix_length in Ep. simpl String.length in Ep.
  rewrite drop_app by exact Ep.
  rewrite digit_run_line.
  rewrite drop_app by apply digit_run_length.
  rewrite prefix_line by (repeat constructor; discriminate).
  reflexivity.
Qed.

Lemma page_marker_at_length (s : string) (n : nat) :
  page_marker_at s = Some n -> (1 <= n <= String.length s)%nat.
Proof.
  unfold page_marker_at.
  destruct (String.prefix "--- Page " s) eqn:Ep; [|discriminate].
  apply prefix_length in Ep. simpl String.length in Ep.
  pose proof (drop_length 9 s) as Hafter.
  remember (drop 9 s) as after eqn:Ea. clear Ea.
  pose proof (drop_length (digit_run after) after) as Hrest.
  remember (digit_run after) as d eqn:Ed. clear Ed.
  destruct ((0 <? d)%nat && String.prefix " ---" (drop d after)) eqn:E;
    [|discriminate].
  intros H. injection H as <-.
  apply andb_prop in E. destruct E as [_ E].
  apply prefix_length in E. simpl String.length in E. lia.
Qed.

Lemma remove_page_markers_line (a b : string) :
  forall skip,
    (skip <= String.length a)%nat ->
    remove_page_markers skip (a ++ String "010" b)
    = remove_page_markers skip a ++ String "010" (remove_page_markers 0 b).
Proof.
  induction a as [|c a IH]; intros skip Hskip.
  - simpl in Hskip. replace skip with 0%nat by lia. reflexivity.
  - change (String c a ++ String "010" b)
      with (String c (a ++ String "010" b)).
    destruct skip as [|k].
    + change (remove_page_markers 0 (String c (a ++ String "010" b)))
        with (match page_marker_at (String c (a ++ String "010" b)) with
              | Some n =>
                  remove_page_markers (Nat.pred n) (a ++ String "010" b)
              | None =>
                  String c (remove_page_markers 0 (a ++ String "010" b))
              end).
      change (remove_page_markers 0 (String c a))
        with (match page_marker_at (String c a) with
              | Some n => remove_page_markers (Nat.pred n) a
              | None => String c (remove_page_markers 0 a)
              end).
      change (String c (a ++ String "010" b))
        with (String c a ++ String "010" b).
      rewrite page_marker_at_line.
      destruct (page_marker_at (String c a)) as [n|] eqn:E.
      * apply page_marker_at_length in E. simpl in E.
        apply IH. lia.
      * rewrite IH by lia. reflexivity.
    + simpl. apply IH. simpl in Hskip. lia.
Qed.

(** *** Words across line breaks *)

Lemma split_whitespace_cons (c : ascii) (rest : string) :
  split_whitespace (String c rest)
  = if is_space c then split_whitespace rest
    else match rest with
         | EmptyString => [String c EmptyString]
         | String c' _ =>
             if is_space c'
             then String c EmptyString :: split_whitespace rest
             else cons_head c (split_whitespace rest)
         end.
Proof. reflexivity. Qed.

Lemma split_whitespace_starts (c : ascii) (rest : string) :
  is_space c = false ->
  exists w ws, split_whitespace (String c rest) = w :: ws.
Proof.
  intros Hc. rewrite split_whitespace_cons, Hc.
  destruct rest as [|c' rest']; [now eexists _, _|].
  destruct (is_space c'); [now eexists _, _|].
  destruct (split_whitespace (String c' rest')); simpl; now eexists _, _.
Qed.

Lemma split_whitespace_line (u v : string) :
  split_whitespace (u ++ String "010" v)
  = (split_whitespace u ++ split_whitespace v)%list.
Proof.
  induction u as [|c u IH]; [reflexivity|].
  change (String c u ++ String "010" v)
    with (String c (u ++ String "010" v)).
  rewrite !split_whitespace_cons.
  destruct (is_space c); [exact IH|].
  destruct u as [|c' u'].
  - reflexivity.
  - change (String c' u' ++ String "010" v)
      with (String c' (u' ++ String "010" v)) in *.
    destruct (is_space c') eqn:Ec'; cbv iota; rewrite ?Ec', IH.
    + reflexivity.
    + destruct (split_whitespace_starts c' u' Ec') as (w & ws & ->).
      reflexivity.
Qed.

(** *** The first step of [clean_text] and the lines *)

Lemma line_words_empty : line_words "" = [].
Proof. reflexivity. Qed.

Lemma split_char_head_of_break (rest : string) :
  hd "" (split_char "010" (String "010" rest)) = "".
Proof. reflexivity. Qed.

Lemma squeeze_breaks_lines (text : string) :
  hd "" (split_char "010" (squeeze "010" text))
  = hd "" (split_char "010" text)
  /\ flat_map line_words (tl (split_char "010" (squeeze "010" text)))
     = flat_map line_words (tl (split_char "010" text)).
Proof.
  induction text as [|a rest IH]; [now split|].
  destruct IH as [IHhd IHtl].
  rewrite squeeze_cons.
  destruct (split_char_nonempty "010" rest) as (l & ls & El).
  destruct (split_char_nonempty "010" (squeeze "010" rest))
    as (l' & ls' & El').
  rewrite El, El' in *. simpl in IHhd, IHtl. subst l'.
  destruct (Ascii.eqb_spec a "010") as [-> | Hne].
  - simpl andb.
    destruct (starts_with "010" rest) eqn:Es.
    + destruct rest as [|b rest']; [discriminate|].
      simpl in Es. apply Ascii.eqb_eq in Es. subst b.
      simpl in El. injection El as <- <-.
      rewrite El'. simpl. split; [reflexivity|].
      simpl in IHtl. exact IHtl.
    + simpl. rewrite El, El'. simpl. split; [reflexivity|].
      now rewrite IHtl.
  - simpl andb. cbv iota.
    simpl split_char.
    destruct (Ascii.eqb a "010") eqn:Ea;
      [apply Ascii.eqb_eq in Ea; contradiction|].
    rewrite El, El'. simpl. split; [reflexivity | exact IHtl].
Qed.

Lemma flat_map_lines_squeezed (text : string) :
  flat_map line_words (split_char "010" (squeeze "010" text))
  = flat_map line_words (split_char "010" text).
Proof.
  destruct (squeeze_breaks_lines text) as [Hhd Htl].
  destruct (split_char_nonempty "010" text) as (l & ls & El).
  destruct (split_char_nonempty "010" (squeeze "010" text))
    as (l' & ls' & El').
  rewrite El, El' in *. simpl in *. now rewrite Hhd, Htl.
Qed.

(** *** [clean_text], line by line *)

Lemma joined_lines_words (l : string) (ls : list string) :
  split_whitespace
    (blank_special
       (remove_page_markers 0 (squeeze " " (join nl (l :: ls)))))
  = flat_map line_words (l :: ls).
Proof.
  revert l. induction ls as [|l' ls IH]; intros l.
  - simpl. now rewrite app_nil_r.
  - change (join nl (l :: l' :: ls))
      with (l ++ String "010" (join nl (l' :: ls))).
    rewrite squeeze_space_line.
    rewrite remove_page_markers_line by lia.
    rewrite blank_special_line, split_whitespace_line, IH.
    reflexivity.
Qed.

(** The words of a text are the words of its lines. *)
Lemma text_words_by_line (text : string) :
  text_words text = flat_map line_words (split_char "010" text).
Proof.
  unfold text_words.
  rewrite <- (join_split_char "010" (squeeze "010" text)) at 1.
  destruct (split_char_nonempty "010" (squeeze "010" text))
    as (l & ls & E).
  rewrite E. change (String "010" "") with nl.
  rewrite joined_lines_words, <- E.
  apply flat_map_lines_squeezed.
Qed.

Lemma text_words_line (a b : string) :
  text_words (a ++ String "010" b) = (text_words a ++ text_words b)%list.
Proof.
  rewrite !text_words_by_line, split_char_app. apply flat_map_app.
Qed.

Lemma clean_text_of_words (text : string) :
  clean_text text = strip (join " " (text_words text)).
Proof. reflexivity. Qed.

(** *** Page numbers and page markers *)

Lemma string_of_uint_digits (d : Decimal.uint) :
  Forall (fun c => is_digit c = true)
    (list_ascii_of_string (NilEmpty.string_of_uint d)).
Proof.
  induction d; simpl; constructor; try reflexivity; assumption.
Qed.

Lemma to_uint_not_nil (n : nat) : Nat.to_uint n <> Decimal.Nil.
Proof.
  intros E. pose proof (DecimalNat.Unsigned.of_to n) as H.
  rewrite E in H. simpl in H. subst n. discriminate.
Qed.

Lemma str_of_nat_digits (n : nat) :
  exists d ds,
    str_of_nat n = String d ds
    /\ Forall (fun c => is_digit c = true)
         (list_ascii_of_string (String d ds)).
Proof.
  unfold str_of_nat.
  pose proof (string_of_uint_digits (Nat.to_uint n)) as H.
  pose proof (to_uint_not_nil n) as Hn.
  destruct (Nat.to_uint n); try contradiction; simpl in *;
    eexists _, _; (split; [reflexivity | exact H]).
Qed.

Lemma digit_is_plain (c : ascii) :
  is_digit c = true -> c <> " "%char /\ c <> "010"%char.
Proof. intros H. split; intros ->; discriminate. Qed.

Lemma squeeze_space_digits (ds rest : string) :
  Forall (fun c => is_digit c = true) (list_ascii_of_string ds) ->
  squeeze " " (ds ++ rest) = ds ++ squeeze " " rest.
Proof.
  induction ds as [|c ds IH]; intros H; [reflexivity|].
  inversion H as [|? ? Hc Hrest]; subst.
  change (String c ds ++ rest) with (String c (ds ++ rest)).
  rewrite squeeze_cons, (IH Hrest).
  destruct (Ascii.eqb_spec c " ") as [-> | _]; [discriminate | reflexivity].
Qed.

Lemma digit_run_digits (ds rest : string) :
  Forall (fun c => is_digit c = true) (list_ascii_of_string ds) ->
  digit_run (ds ++ rest) = (String.length ds + digit_run rest)%nat.
Proof.
  induction ds as [|c ds IH]; intros H; [reflexivity|].
  inversion H as [|? ? Hc Hrest]; subst.
  simpl. now rewrite Hc, (IH Hrest).
Qed.

Lemma drop_own_length (s t : string) : drop (String.length s) (s ++ t) = t.
Proof.
  induction s as [|c s IH]; simpl; [now destruct t | exact IH].
Qed.

Lemma remove_page_markers_skips (s : string) :
  forall skip,
    (String.length s <= skip)%nat -> remove_page_markers skip s = "".
Proof.
  induction s as [|c s IH]; intros skip H; [reflexivity|].
  destruct skip as [|k]; [simpl in H; lia|].
  simpl. apply IH. simpl in H. lia.
Qed.

Lemma append_length (s t : string) :
  String.length (s ++ t) = (String.length s + String.length t)%nat.
Proof. induction s as [|c s IH]; simpl; [reflexivity | now rewrite IH]. Qed.

Lemma split_char_absent (c : ascii) (s : string) :
  Forall (fun a => a <> c) (list_ascii_of_string s) ->
  split_char c s = [s].
Proof.
  induction s as [|a s IH]; intros H; [reflexivity|].
  inversion H as [|? ? Ha Hrest]; subst.
  simpl. rewrite (IH Hrest).
  destruct (Ascii.eqb_spec a c); [contradiction | reflexivity].
Qed.

Lemma marker_squeezed (D : string) :
  Forall (fun c => is_digit c = true) (list_ascii_of_string D) ->
  (0 < String.length D)%nat ->
  squeeze " " ("--- Page " ++ D ++ " ---") = "--- Page " ++ D ++ " ---".
Proof.
  intros Hdigits Hlen.
  destruct D as [|c D']; [simpl in Hlen; lia|].
  inversion Hdigits as [|? ? Hc Hrest]; subst.
  assert (Ec : Ascii.eqb c " " = false)
    by (destruct (Ascii.eqb_spec c " ") as [-> | _];
        [discriminate | reflexivity]).
  change ("--- Page " ++ String c D' ++ " ---")
    with (String "-" (String "-" (String "-" (String " " (String "P"
           (String "a" (String "g" (String "e" (String " "
             (String c (D' ++ " ---"))))))))))).
  repeat (rewrite squeeze_cons; cbn [Ascii.eqb Bool.eqb andb starts_with]).
  rewrite ?Ec. cbn [andb].
  now rewrite (squeeze_space_digits D' " ---" Hrest).
Qed.

Lemma marker_matched (D : string) :
  Forall (fun c => is_digit c = true) (list_ascii_of_string D) ->
  (0 < String.length D)%nat ->
  page_marker_at ("--- Page " ++ D ++ " ---")
  = Some (9 + String.length D + 4)%nat.
Proof.
  intros Hdigits Hlen. unfold page_marker_at.
  rewrite (contains_prefix "--- Page " (D ++ " ---")).
  change (drop 9 ("--- Page " ++ D ++ " ---")) with (D ++ " ---").
  rewrite (digit_run_digits D " ---" Hdigits).
  change (digit_run " ---") with 0%nat. rewrite Nat.add_0_r.
  rewrite drop_own_length.
  destruct (String.length D); [lia | reflexivity].
Qed.

Lemma marker_removed (D : string) :
  Forall (fun c => is_digit c = true) (list_ascii_of_string D) ->
  (0 < String.length D)%nat ->
  remove_page_markers 0 ("--- Page " ++ D ++ " ---") = "".
Proof.
  intros Hdigits Hlen.
  pose proof (marker_matched D Hdigits Hlen) as Eat.
  change ("--- Page " ++ D ++ " ---")
    with (String "-" ("-- Page " ++ D ++ " ---")) in *.
  change (remove_page_markers 0 (String "-" ("-- Page " ++ D ++ " ---")))
    with (match page_marker_at
                  (String "-" ("-- Page " ++ D ++ " ---")) with
          | Some k =>
              remove_page_markers (Nat.pred k) ("-- Page " ++ D ++ " ---")
          | None =>
              String "-" (remove_page_markers 0 ("-- Page " ++ D ++ " ---"))
          end).
  rewrite Eat. apply remove_page_markers_skips.
  rewrite !append_length. simpl. lia.
Qed.

(** [clean_text] finds no word in a page marker. *)
Lemma page_marker_has_no_words (n : nat) : text_words (page_marker n) = [].
Proof.
  unfold page_marker.
  destruct (str_of_nat_digits (n + 1)) as (d & ds & -> & Hdigits).
  remember (String d ds) as D eqn:ED.
  assert (Hlen : (0 < String.length D)%nat) by (subst D; simpl; lia).
  clear ED.
  pose proof (marker_squeezed D Hdigits Hlen) as Esq.
  pose proof (marker_removed D Hdigits Hlen) as Erm.
  assert (Elines : split_char "010" ("--- Page " ++ D ++ " ---")
                   = ["--- Page " ++ D ++ " ---"]).
  { apply split_char_absent.
    rewrite !chars_append. apply Forall_app. split.
    - repeat constructor; discriminate.
    - apply Forall_app. split.
      + eapply Forall_impl; [|exact Hdigits].
        intros c Hc. now apply digit_is_plain.
      + repeat constructor; discriminate. }
  remember ("--- Page " ++ D ++ " ---") as M eqn:EM. clear EM.
  rewrite text_words_by_line, Elines.
  change (flat_map line_words [M]) with (line_words M ++ [])%list.
  unfold line_words. rewrite Esq, Erm. reflexivity.
Qed.

(** *** The extracted text *)

Lemma page_block_shape (n : nat) (text : string) :
  page_block (n, text)
  = String "010" (page_marker n ++ String "010" text).
Proof.
  unfold page_block, page_marker. simpl fst. simpl snd.
  now rewrite !append_assoc.
Qed.

Lemma blocks_words (items : list (nat * string)) :
  forall before,
    text_words (before ++ join "" (map page_block items))
    = (text_words before
       ++ flat_map (fun item => text_words (snd item)) items)%list.
Proof.
  induction items as [|[n t] items IH]; intros before.
  - simpl. now rewrite append_empty_r, app_nil_r.
  - simpl map. rewrite join_empty_cons, page_block_shape.
    change (String "010" (page_marker n ++ String "010" t)
            ++ join "" (map page_block items))
      with (String "010"
              ((page_marker n ++ String "010" t)
               ++ join "" (map page_block items))).
    rewrite text_words_line, append_assoc.
    change (String "010" t ++ join "" (map page_block items))
      with (String "010" (t ++ join "" (map page_block items))).
    rewrite text_words_line, page_marker_has_no_words, IH.
    reflexivity.
Qed.

Lemma joined_texts_words (texts : list string) :
  text_words (join nl texts) = flat_map text_words texts.
Proof.
  induction texts as [|t texts IH]; [reflexivity|].
  destruct texts as [|t' texts].
  - simpl. now rewrite app_nil_r.
  - change (join nl (t :: t' :: texts))
      with (t ++ String "010" (join nl (t' :: texts))).
    now rewrite text_words_line, IH.
Qed.

End PipelineFacts.

Module LengthFacts.
Import Py PyMore PDFProcessor Props MoreProps.
Import PyFacts CleanFacts PipelineFacts.

Lemma squeeze_length (c : ascii) (s : string) :
  (String.length (squeeze c s) <= String.length s)%nat.
Proof.
  induction s as [|a s IH]; [simpl; lia|].
  rewrite squeeze_cons.
  destruct (Ascii.eqb a c && starts_with c s); simpl; lia.
Qed.

Lemma remove_page_markers_length (s : string) :
  forall skip,
    (String.length (remove_page_markers skip s) <= String.length s)%nat.
Proof.
  induction s as [|c s IH]; intros skip; [simpl; lia|].
  destruct skip as [|k].
  - change (remove_page_markers 0 (String c s))
      with (match page_marker_at (String c s) with
            | Some n => remove_page_markers (Nat.pred n) s
            | None => String c (remove_page_markers 0 s)
            end).
    destruct (page_marker_at (String c s)) as [n|].
    + specialize (IH (Nat.pred n)). simpl. lia.
    + specialize (IH 0%nat). simpl. lia.
  - specialize (IH k). simpl. lia.
Qed.

Lemma blank_special_length (s : string) :
  String.length (blank_special s) = String.length s.
Proof. induction s as [|c s IH]; simpl; [reflexivity | now rewrite IH]. Qed.

Lemma rejoined_words_length (s : string) :
  (String.length (join " " (split_whitespace s)) <= String.length s)%nat
  /\ (starts_with_space s = true ->
      String.length (join " " (split_whitespace s)) + 1
      <= String.length s)%nat.
Proof.
  induction s as [|c rest IH]; [split; [simpl; lia | discriminate]|].
  destruct IH as [IHle IHspace].
  rewrite split_whitespace_cons.
  change (starts_with_space (String c rest)) with (is_space c).
  destruct (is_space c) eqn:Ec.
  - split; [simpl; lia | intros _; simpl; lia].
  - split; [|discriminate].
    destruct rest as [|c' rest']; [simpl; lia|].
    destruct (is_space c') eqn:Ec'.
    + assert (Hrest : (String.length
                         (join " " (split_whitespace (String c' rest')))
                       + 1 <= String.length (String c' rest'))%nat).
      { apply IHspace. exact Ec'. }
      destruct (split_whitespace (String c' rest')) as [|w ws] eqn:E.
      * simpl. lia.
      * rewrite join_cons by discriminate.
        change (String c "" ++ " " ++ join " " (w :: ws))
          with (String c (String " " (join " " (w :: ws)))).
        simpl String.length in *. lia.
    + destruct (split_whitespace_starts c' rest' Ec') as (w & ws & E).
      rewrite E in *. rewrite join_cons_head.
      simpl String.length in *. lia.
Qed.

Lemma lstrip_length (s : string) :
  (String.length (lstrip s) <= String.length s)%nat.
Proof.
  induction s as [|c s IH]; [simpl; lia|].
  simpl. destruct (is_space c); simpl; lia.
Qed.

Lemma rstrip_length (s : string) :
  (String.length (rstrip s) <= String.length s)%nat.
Proof.
  induction s as [|c s IH]; [simpl; lia|].
  simpl. destruct (negb (truthy (rstrip s)) && is_space c); simpl; lia.
Qed.

End LengthFacts.

Module PipelineExtras.
Import Py PyMore PDFProcessor Extractor PDFSummarizer Props MoreProps.
Import PyFacts ExtractorFacts PipelineFacts LengthFacts.

(** X17.  [clean_text] never makes a text longer. *)
Theorem clean_text_is_not_longer (raw : string) :
  (String.length (clean_text raw) <= String.length raw)%nat.
Proof.
  unfold clean_text, strip.
  pose proof (squeeze_length "010" raw) as H1.
  pose proof (squeeze_length " " (squeeze "010" raw)) as H2.
  pose proof (remove_page_markers_length
                (squeeze " " (squeeze "010" raw)) 0) as H3.
  pose proof (blank_special_length
                (remove_page_markers 0 (squeeze " " (squeeze "010" raw))))
    as H4.
  destruct (rejoined_words_length
              (blank_special
                 (remove_page_markers 0
                    (squeeze " " (squeeze "010" raw))))) as [H5 _].
  pose proof (lstrip_length
                (join " "
                   (split_whitespace
                      (blank_special
                         (remove_page_markers 0
                            (squeeze " " (squeeze "010" raw))))))) as H6.
  pose proof (rstrip_length
                (lstrip
                   (join " "
                      (split_whitespace
                         (blank_special
                            (remove_page_markers 0
                               (squeeze " " (squeeze "010" raw))))))))
    as H7.
  lia.
Qed.

(** X16.  The cleaner undoes what the extractor adds: for a readable
    document, cleaning the extracted text gives the same text as cleaning
    the texts of the pages that could be extracted, joined by line breaks.
    The markers the extractor writes leave no trace, whatever the page
    texts are. *)
Theorem cleaning_drops_the_page_markers (pages : list Page) :
  exists text,
    fst (extract_text_from_pdf (Returned pages)) = Returned text
    /\ clean_text text
       = clean_text
           (join nl (map snd (extracted_pages (enumerate 0 pages)))).
Proof.
  exists (join "" (map page_block (extracted_pages (enumerate 0 pages)))).
  split.
  - unfold extract_text_from_pdf.
    pose proof (page_loop_text (enumerate 0 pages) "" []) as H.
    destruct (fold_left page_step (enumerate 0 pages) ("", []))
      as [text printed].
    simpl in H. now rewrite H.
  - rewrite !clean_text_of_words. f_equal. f_equal.
    rewrite joined_texts_words, flat_map_concat_map, map_map,
      <- flat_map_concat_map.
    exact (blocks_words (extracted_pages (enumerate 0 pages)) "").
Qed.

End PipelineExtras.
